(** * api-spec-converter: the convert handler of the two front-end variants

    The repository holds two near-duplicate React components, both in
    [src/web-2/src/App.tsx]: an earlier plain-CSS [App] (lines 1-201) and a
    later styled [App] (lines 203-468).  Each owns seven pieces of component
    state and one asynchronous handler, [handleConvert], which drives the
    external [amf-client-js] library through
    select clients -> parse -> check -> transform -> check -> render.

    The development embeds
      - the JavaScript fragments the handler relies on ([String.prototype.trim],
        [startsWith], [Array.prototype.join], the conversion of a thrown
        value to a text, completion records with [try]/[catch]/[finally]);
      - the library as an arbitrary stateful collaborator whose calls either
        return or throw;
      - the component state, the [useState] setters and the handler of each
        variant, written statement by statement after the source. *)

From Stdlib Require Import String Ascii List Bool Arith Lia.
Import ListNotations.
Local Open Scope string_scope.

(** ** JavaScript values used by the handler *)

Module Js.

(** A string is the UTF-8 encoding of a text, one [ascii] per byte, the way
    a string literal is read. *)
Definition utf8 (bytes : list nat) : string :=
  string_of_list_ascii (map ascii_of_nat bytes).

(** The line feed written ['\n'] in the source. *)
Definition LF : string := String (ascii_of_nat 10) EmptyString.

(** The code points [String.prototype.trim] strips, each in UTF-8: the
    ECMAScript WhiteSpace code points U+0009 TAB, U+000B VT, U+000C FF,
    U+FEFF and the space separators U+0020, U+00A0, U+1680, U+2000 to
    U+200A, U+202F, U+205F, U+3000; and the LineTerminator code points
    U+000A LF, U+000D CR, U+2028, U+2029. *)
Definition whiteSpace : list string :=
  Eval cbv in
    map utf8
      [ [9]; [10]; [11]; [12]; [13]; [32];
        [194; 160];
        [225; 154; 128];
        [226; 128; 128]; [226; 128; 129]; [226; 128; 130]; [226; 128; 131];
        [226; 128; 132]; [226; 128; 133]; [226; 128; 134]; [226; 128; 135];
        [226; 128; 136]; [226; 128; 137]; [226; 128; 138];
        [226; 128; 168]; [226; 128; 169];
        [226; 128; 175];
        [226; 129; 159];
        [227; 128; 128];
        [239; 187; 191] ].

Definition isWhiteSpace (codePoint : string) : bool :=
  existsb (String.eqb codePoint) whiteSpace.

(** [trimStart]: white space is stripped from the front, one code point of
    one, two or three bytes at a time. *)
Fixpoint trimStart (s : string) : string :=
  match s with
  | EmptyString => EmptyString
  | String a s1 =>
      if isWhiteSpace (String a EmptyString) then trimStart s1
      else
        match s1 with
        | EmptyString => s
        | String b s2 =>
            if isWhiteSpace (String a (String b EmptyString))
            then trimStart s2
            else
              match s2 with
              | EmptyString => s
              | String c s3 =>
                  if isWhiteSpace
                       (String a (String b (String c EmptyString)))
                  then trimStart s3
                  else s
              end
        end
  end.

(** [trimEnd]: the string is cut at the first point after which nothing but
    white space follows.  In well-formed UTF-8 that point is never inside a
    code point: no continuation byte starts a white-space code point. *)
Fixpoint trimEnd (s : string) : string :=
  match s with
  | EmptyString => EmptyString
  | String a s' =>
      match trimStart s with
      | EmptyString => EmptyString
      | String _ _ => String a (trimEnd s')
      end
  end.

(** [String.prototype.trim]. *)
Definition trim (s : string) : string := trimEnd (trimStart s).

(** ToBoolean on a string: the empty string is the only falsy one. *)
Definition truthy (s : string) : bool :=
  match s with
  | EmptyString => false
  | String _ _ => true
  end.

(** [String.prototype.startsWith] with the search string first. *)
Definition startsWith (search s : string) : bool := String.prefix search s.

(** [Array.prototype.join] on an array of strings. *)
Definition join (sep : string) (parts : list string) : string :=
  String.concat sep parts.

(** A thrown value, as far as the [catch] clause inspects it: either an
    instance of [Error], of which [message] is read and put into a template
    literal, or something else, of which [String(err)] is taken.  Either
    conversion yields a text or throws in its turn: a [message] that is a
    [Symbol], an object without [toString] such as [Object.create(null)],
    a [toString] that throws. *)
Inductive Value : Type :=
| ErrorObject (message : Conversion)
| NonError (stringForm : Conversion)
with Conversion : Type :=
| Text (s : string)
| Fails (thrown : Value).

(** A string literal stands for the conversion that yields it. *)
Coercion Text : string >-> Conversion.

(** What a call into foreign code (awaited when it yields a promise) does:
    it hands back a value or throws. *)
Inductive Outcome (A : Type) : Type :=
| Returns (a : A)
| Throws (e : Value).
Arguments Returns {A} a.
Arguments Throws {A} e.

(** [`${err instanceof Error ? err.message : String(err)}`] *)
Definition describe (err : Value) : Outcome string :=
  match
    match err with
    | ErrorObject message => message
    | NonError stringForm => stringForm
    end
  with
  | Text s => Returns s
  | Fails thrown => Throws thrown
  end.

(** Completion records of statements: normal, [return], or [throw]. *)
Inductive Completion (A : Type) : Type :=
| Normal (a : A)
| Return
| Throw (e : Value).
Arguments Normal {A} a.
Arguments Return {A}.
Arguments Throw {A} e.

End Js.

(** ** The external document-modelling library

    [amf-client-js] is not part of the repository.  The handler sees it as a
    family of configurations, each yielding a client, and four client
    operations.  Nothing is assumed about it beyond its call shapes: every
    operation may return or throw, and may depend on and change hidden state
    of the library's own (caches, the network behind a URL fetch). *)

Module Amf.
Import Js.

(** [RAMLConfiguration.RAML08()], [RAMLConfiguration.RAML10()],
    [OASConfiguration.OAS20()], [OASConfiguration.OAS30()]. *)
Inductive Configuration : Type := RAML08 | RAML10 | OAS20 | OAS30.

Inductive PipelineId : Type := Default | Editing | Compatibility | Cache.

Record AMFValidationResult : Type := { message : string }.

(** [AMFResult] and its extension [AMFDocumentResult]: the unit and the
    diagnostics.  [results] is an array in the library's typings; the
    handler still guards against a missing one, so the field is optional
    here. *)
Record AMFResult (BaseUnit : Type) : Type :=
  { baseUnit : BaseUnit;
    results : option (list AMFValidationResult) }.
Arguments baseUnit {BaseUnit} _.
Arguments results {BaseUnit} _.

Record Library (Client BaseUnit LibState : Type) : Type :=
  { baseUnitClient :
      Configuration -> LibState -> Outcome Client * LibState;
    parseDocument :
      Client -> string -> LibState -> Outcome (AMFResult BaseUnit) * LibState;
    parseContent :
      Client -> string -> string -> LibState ->
      Outcome (AMFResult BaseUnit) * LibState;
    transform :
      Client -> BaseUnit -> PipelineId -> LibState ->
      Outcome (AMFResult BaseUnit) * LibState;
    render :
      Client -> BaseUnit -> string -> LibState -> Outcome string * LibState }.
Arguments baseUnitClient {Client BaseUnit LibState} _ _ _.
Arguments parseDocument {Client BaseUnit LibState} _ _ _ _.
Arguments parseContent {Client BaseUnit LibState} _ _ _ _ _.
Arguments transform {Client BaseUnit LibState} _ _ _ _ _.
Arguments render {Client BaseUnit LibState} _ _ _ _ _.

(** [xs && xs.length > 0] *)
Definition nonEmpty {A : Type} (xs : option (list A)) : bool :=
  match xs with
  | Some (_ :: _) => true
  | Some [] => false
  | None => false
  end.

(** [xs.map(r => r.message).join('\n')], reached only under [nonEmpty]. *)
Definition messages (xs : option (list AMFValidationResult)) : string :=
  match xs with
  | Some rs => join LF (map message rs)
  | None => EmptyString
  end.

End Amf.

(** ** Component state, observable effects and the handler monad *)

Module Ui.
Import Js Amf.

Inductive InputMode : Type := url | content.

(** The seven [useState] cells of [App]. *)
Record State (Format : Type) : Type :=
  { inputFormat : Format;
    outputFormat : Format;
    inputMode : InputMode;
    input : string;
    output : string;
    loading : bool;
    error : string }.
Arguments inputFormat {Format} _.
Arguments outputFormat {Format} _.
Arguments inputMode {Format} _.
Arguments input {Format} _.
Arguments output {Format} _.
Arguments loading {Format} _.
Arguments error {Format} _.

(** Everything the handler does to the outside, in the order it happens:
    library calls with their arguments and outcome, console output, and
    state-setter calls. *)
Inductive Event (Client BaseUnit : Type) : Type :=
| BaseUnitClient (cfg : Configuration) (r : Outcome Client)
| ParseDocument (c : Client) (source : string)
    (r : Outcome (AMFResult BaseUnit))
| ParseContent (c : Client) (source mediaType : string)
    (r : Outcome (AMFResult BaseUnit))
| Transform (c : Client) (unit_ : BaseUnit) (pipeline : PipelineId)
    (r : Outcome (AMFResult BaseUnit))
| Render (c : Client) (unit_ : BaseUnit) (mediaType : string)
    (r : Outcome string)
| ConsoleWarn (label text : string)
| ConsoleError (label : string) (err : Value)
| SetLoading (b : bool)
| SetError (s : string)
| SetOutput (s : string).
Arguments BaseUnitClient {Client BaseUnit} _ _.
Arguments ParseDocument {Client BaseUnit} _ _ _.
Arguments ParseContent {Client BaseUnit} _ _ _ _.
Arguments Transform {Client BaseUnit} _ _ _ _.
Arguments Render {Client BaseUnit} _ _ _ _.
Arguments ConsoleWarn {Client BaseUnit} _ _.
Arguments ConsoleError {Client BaseUnit} _ _.
Arguments SetLoading {Client BaseUnit} _.
Arguments SetError {Client BaseUnit} _.
Arguments SetOutput {Client BaseUnit} _.

Section Classify.
Context {Client BaseUnit : Type}.
Local Abbreviation Event := (Event Client BaseUnit).

Definition isParse (e : Event) : bool :=
  match e with
  | ParseDocument _ _ _ | ParseContent _ _ _ _ => true
  | _ => false
  end.

Definition isTransform (e : Event) : bool :=
  match e with Transform _ _ _ _ => true | _ => false end.

Definition isRender (e : Event) : bool :=
  match e with Render _ _ _ _ => true | _ => false end.

Definition isLibraryCall (e : Event) : bool :=
  match e with
  | BaseUnitClient _ _ | ParseDocument _ _ _ | ParseContent _ _ _ _
  | Transform _ _ _ _ | Render _ _ _ _ => true
  | _ => false
  end.

(** The value a library call threw, if it threw. *)
Definition thrown (e : Event) : option Value :=
  match e with
  | BaseUnitClient _ (Throws v) | ParseDocument _ _ (Throws v)
  | ParseContent _ _ _ (Throws v) | Transform _ _ _ (Throws v)
  | Render _ _ _ (Throws v) => Some v
  | _ => None
  end.

(** The result bundle a parse call returned, if it returned. *)
Definition parsed (e : Event) : option (AMFResult BaseUnit) :=
  match e with
  | ParseDocument _ _ (Returns r) | ParseContent _ _ _ (Returns r) => Some r
  | _ => None
  end.

(** The result bundle a transform call returned, if it returned. *)
Definition transformed (e : Event) : option (AMFResult BaseUnit) :=
  match e with
  | Transform _ _ _ (Returns r) => Some r
  | _ => None
  end.

End Classify.

Section Monad.
Context {Format Client BaseUnit LibState : Type}.
Local Abbreviation State := (State Format).
Local Abbreviation Event := (Event Client BaseUnit).
Local Abbreviation Library := (Library Client BaseUnit LibState).

Record World : Type :=
  { ui : State;
    lib : LibState;
    trace : list Event }.

(** A handler fragment: runs in a world, completes normally, by [return]
    or by [throw], and leaves a world. *)
Definition M (A : Type) : Type := World -> Completion A * World.

Definition ret {A : Type} (a : A) : M A := fun w => (Normal a, w).

(** Sequencing: only a normal completion continues. *)
Definition bind {A B : Type} (m : M A) (k : A -> M B) : M B :=
  fun w =>
    match m w with
    | (Normal a, w') => k a w'
    | (Return, w') => (Return, w')
    | (Throw e, w') => (Throw e, w')
    end.

(** An expression whose evaluation yields a value or throws. *)
Definition evaluate {A : Type} (o : Outcome A) : M A :=
  fun w =>
    match o with
    | Returns a => (Normal a, w)
    | Throws e => (Throw e, w)
    end.

(** The [return] statement. *)
Definition return_ {A : Type} : M A := fun w => (Return, w).

(** [if (c) { body }] with no [else]. *)
Definition when (c : bool) (body : M unit) : M unit :=
  if c then body else ret tt.

(** [try { body } catch (err) { handler } finally { fin }]. *)
Definition tryCatchFinally {A : Type}
    (body : M A) (handler : Value -> M A) (fin : M unit) : M A :=
  fun w =>
    let (c, w1) :=
      match body w with
      | (Throw e, w') => handler e w'
      | other => other
      end in
    match fin w1 with
    | (Normal _, w2) => (c, w2)
    | (Return, w2) => (Return, w2)
    | (Throw e, w2) => (Throw e, w2)
    end.

Definition emit (e : Event) (w : World) : World :=
  {| ui := ui w; lib := lib w; trace := trace w ++ [e] |}.

Definition update (f : State -> State) (w : World) : World :=
  {| ui := f (ui w); lib := lib w; trace := trace w |}.

(** The values of the state cells the handler's closure reads. *)
Definition closure : M State := fun w => (Normal (ui w), w).

(** The cell written by each setter; the other six keep their value. *)
Definition withLoading (b : bool) (s : State) : State :=
  {| inputFormat := inputFormat s; outputFormat := outputFormat s;
     inputMode := inputMode s; input := input s;
     output := output s; loading := b; error := error s |}.

Definition withError (msg : string) (s : State) : State :=
  {| inputFormat := inputFormat s; outputFormat := outputFormat s;
     inputMode := inputMode s; input := input s;
     output := output s; loading := loading s; error := msg |}.

Definition withOutput (text : string) (s : State) : State :=
  {| inputFormat := inputFormat s; outputFormat := outputFormat s;
     inputMode := inputMode s; input := input s;
     output := text; loading := loading s; error := error s |}.

Definition setLoading (b : bool) : M unit :=
  fun w => (Normal tt, emit (SetLoading b) (update (withLoading b) w)).

Definition setError (msg : string) : M unit :=
  fun w => (Normal tt, emit (SetError msg) (update (withError msg) w)).

Definition setOutput (text : string) : M unit :=
  fun w => (Normal tt, emit (SetOutput text) (update (withOutput text) w)).

Definition consoleWarn (label text : string) : M unit :=
  fun w => (Normal tt, emit (ConsoleWarn label text) w).

Definition consoleError (label : string) (err : Value) : M unit :=
  fun w => (Normal tt, emit (ConsoleError label err) w).

(** A call into the library: the library's state advances, the call and
    its outcome are recorded, and a thrown value becomes a [throw]. *)
Definition call {A : Type}
    (op : LibState -> Outcome A * LibState)
    (record : Outcome A -> Event) : M A :=
  fun w =>
    let (r, l') := op (lib w) in
    let w' := emit (record r) {| ui := ui w; lib := l'; trace := trace w |} in
    match r with
    | Returns a => (Normal a, w')
    | Throws e => (Throw e, w')
    end.

Variable amf : Library.

Definition baseUnitClient_ (cfg : Configuration) : M Client :=
  call (baseUnitClient amf cfg) (BaseUnitClient cfg).

Definition parseDocument_ (c : Client) (source : string)
  : M (AMFResult BaseUnit) :=
  call (parseDocument amf c source) (ParseDocument c source).

Definition parseContent_ (c : Client) (source mediaType : string)
  : M (AMFResult BaseUnit) :=
  call (parseContent amf c source mediaType)
       (ParseContent c source mediaType).

Definition transform_ (c : Client) (u : BaseUnit) (p : PipelineId)
  : M (AMFResult BaseUnit) :=
  call (transform amf c u p) (Transform c u p).

Definition render_ (c : Client) (u : BaseUnit) (mediaType : string)
  : M string :=
  call (render amf c u mediaType) (Render c u mediaType).

(** One invocation of a handler on a freshly rendered component. *)
Definition invoke {A : Type} (h : M A) (s : State) (l : LibState)
  : Completion A * World :=
  h {| ui := s; lib := l; trace := [] |}.
End Monad.
Arguments World : clear implicits.
Arguments M : clear implicits.

Declare Scope handler_scope.
Delimit Scope handler_scope with handler.
Notation "x <- m ;; k" := (bind m (fun x => k))
  (at level 100, m at next level, right associativity) : handler_scope.
Notation "m ;; k" := (bind m (fun _ => k))
  (at level 100, right associativity) : handler_scope.

End Ui.

(** ** The plain-CSS variant ([App.tsx], lines 1-201) *)

Module PlainCss.
Import Js Amf Ui.
Local Open Scope handler_scope.

(** [type Format = 'RAML 1.0' | 'OAS 2.0' | 'OAS 3.0'] *)
Inductive Format : Type := RAML_1_0 | OAS_2_0 | OAS_3_0.

(** The string literal behind each member of the union. *)
Definition toString (format : Format) : string :=
  match format with
  | RAML_1_0 => "RAML 1.0"
  | OAS_2_0 => "OAS 2.0"
  | OAS_3_0 => "OAS 3.0"
  end.

(** The [<option>] elements of the two [<select>] pickers, as
    (value, label) pairs in document order. *)
Definition inputFormatOptions : list (string * string) :=
  [ ("RAML 1.0", "RAML 1.0");
    ("OAS 2.0", "OAS 2.0 (Swagger)");
    ("OAS 3.0", "OAS 3.0 (OpenAPI)") ].

Definition outputFormatOptions : list (string * string) :=
  [ ("RAML 1.0", "RAML 1.0");
    ("OAS 2.0", "OAS 2.0 (Swagger)");
    ("OAS 3.0", "OAS 3.0 (OpenAPI)") ].

(** [disabled={loading || !input.trim()}] on the convert button. *)
Definition disabled (s : State Format) : bool :=
  loading s || negb (truthy (trim (input s))).

Section Handler.
Context {Client BaseUnit LibState : Type}.
Variable amf : Library Client BaseUnit LibState.
Local Abbreviation M := (Ui.M Format Client BaseUnit LibState).

(** [getClient], lines 24-33. *)
Definition getClient (format : Format) : M Client :=
  match format with
  | RAML_1_0 => baseUnitClient_ amf RAML10
  | OAS_2_0 => baseUnitClient_ amf OAS20
  | OAS_3_0 => baseUnitClient_ amf OAS30
  end.

(** [handleConvert], lines 35-92.  The awaited calls are run to completion
    in place: a rejected promise is a [throw] at the [await]. *)
Definition handleConvert : M unit :=
  s <- closure ;;
  when (negb (truthy (trim (input s))))
    (setError "Please provide input" ;;
     return_) ;;

  setLoading true ;;
  setError "" ;;
  setOutput "" ;;

  tryCatchFinally
    (inputClient <- getClient (inputFormat s) ;;
     outputClient <- getClient (outputFormat s) ;;

     parse <-
       match inputMode s with
       | url =>
           parseResult <- parseDocument_ amf inputClient (input s) ;;
           ret (Amf.baseUnit parseResult, results parseResult)
       | content =>
           result <- parseContent_ amf inputClient (input s) "application/yaml" ;;
           ret (Amf.baseUnit result, results result)
       end ;;
     let (baseUnit, parseErrors) := parse in

     when (nonEmpty parseErrors)
       (let errors := messages parseErrors in
        setError ("Parsing errors:" ++ LF ++ errors) ;;
        setLoading false ;;
        return_) ;;

     transformResult <- transform_ amf outputClient baseUnit Compatibility ;;

     when (nonEmpty (results transformResult))
       (let warnings := messages (results transformResult) in
        consoleWarn "Transform warnings:" warnings) ;;

     let mimeType :=
       if startsWith "RAML" (toString (outputFormat s))
       then "application/yaml" else "application/json" in
     rendered <- render_ amf outputClient (Amf.baseUnit transformResult) mimeType ;;

     setOutput rendered)
    (fun err =>
       text <- evaluate (describe err) ;;
       setError ("Conversion error: " ++ text))
    (setLoading false).

End Handler.
End PlainCss.

(** ** The styled variant ([App.tsx], lines 203-468) *)

Module Styled.
Import Js Amf Ui.
Local Open Scope handler_scope.

(** [type Format = 'RAML 0.8' | 'RAML 1.0' | 'OAS 2.0' | 'OAS 3.0'] *)
Inductive Format : Type := RAML_0_8 | RAML_1_0 | OAS_2_0 | OAS_3_0.

(** The string literal behind each member of the union. *)
Definition toString (format : Format) : string :=
  match format with
  | RAML_0_8 => "RAML 0.8"
  | RAML_1_0 => "RAML 1.0"
  | OAS_2_0 => "OAS 2.0"
  | OAS_3_0 => "OAS 3.0"
  end.

(** The [<option>] elements of the two [<select>] pickers, as
    (value, label) pairs in document order. *)
Definition inputFormatOptions : list (string * string) :=
  [ ("RAML 0.8", "RAML 0.8");
    ("RAML 1.0", "RAML 1.0");
    ("OAS 2.0", "OAS 2.0 (Swagger)");
    ("OAS 3.0", "OAS 3.0 (OpenAPI)") ].

Definition outputFormatOptions : list (string * string) :=
  [ ("RAML 0.8", "RAML 0.8");
    ("RAML 1.0", "RAML 1.0");
    ("OAS 2.0", "OAS 2.0 (Swagger)");
    ("OAS 3.0", "OAS 3.0 (OpenAPI)") ].

(** [disabled={loading || !input.trim()}] on the convert button. *)
Definition disabled (s : State Format) : bool :=
  loading s || negb (truthy (trim (input s))).

Section Handler.
Context {Client BaseUnit LibState : Type}.
Variable amf : Library Client BaseUnit LibState.
Local Abbreviation M := (Ui.M Format Client BaseUnit LibState).

(** [getClient], lines 224-235. *)
Definition getClient (format : Format) : M Client :=
  match format with
  | RAML_0_8 => baseUnitClient_ amf RAML08
  | RAML_1_0 => baseUnitClient_ amf RAML10
  | OAS_2_0 => baseUnitClient_ amf OAS20
  | OAS_3_0 => baseUnitClient_ amf OAS30
  end.

(** [handleConvert], lines 237-295.  It differs from the plain-CSS one in
    the [console.error] of its [catch] clause; [transform] is called without
    [await], which makes no difference to a call that returns its result
    directly. *)
Definition handleConvert : M unit :=
  s <- closure ;;
  when (negb (truthy (trim (input s))))
    (setError "Please provide input" ;;
     return_) ;;

  setLoading true ;;
  setError "" ;;
  setOutput "" ;;

  tryCatchFinally
    (inputClient <- getClient (inputFormat s) ;;
     outputClient <- getClient (outputFormat s) ;;

     parse <-
       match inputMode s with
       | url =>
           parseResult <- parseDocument_ amf inputClient (input s) ;;
           ret (Amf.baseUnit parseResult, results parseResult)
       | content =>
           result <- parseContent_ amf inputClient (input s) "application/yaml" ;;
           ret (Amf.baseUnit result, results result)
       end ;;
     let (baseUnit, parseErrors) := parse in

     when (nonEmpty parseErrors)
       (let errors := messages parseErrors in
        setError ("Parsing errors:" ++ LF ++ errors) ;;
        setLoading false ;;
        return_) ;;

     transformResult <- transform_ amf outputClient baseUnit Compatibility ;;

     when (nonEmpty (results transformResult))
       (let warnings := messages (results transformResult) in
        consoleWarn "Transform warnings:" warnings) ;;

     let mimeType :=
       if startsWith "RAML" (toString (outputFormat s))
       then "application/yaml" else "application/json" in
     rendered <- render_ amf outputClient (Amf.baseUnit transformResult) mimeType ;;

     setOutput rendered)
    (fun err =>
       consoleError "Conversion error:" err ;;
       text <- evaluate (describe err) ;;
       setError ("Conversion error: " ++ text))
    (setLoading false).

End Handler.
End Styled.

(** ** Both variants under one name *)

Inductive Variant : Type := plainCss | styled.

Inductive Picker : Type := inputPicker | outputPicker.

Definition Format (v : Variant) : Type :=
  match v with
  | plainCss => PlainCss.Format
  | styled => Styled.Format
  end.

Definition toString (v : Variant) : Format v -> string :=
  match v with
  | plainCss => PlainCss.toString
  | styled => Styled.toString
  end.

Definition formatOptions (v : Variant) (p : Picker) : list (string * string) :=
  match v, p with
  | plainCss, inputPicker => PlainCss.inputFormatOptions
  | plainCss, outputPicker => PlainCss.outputFormatOptions
  | styled, inputPicker => Styled.inputFormatOptions
  | styled, outputPicker => Styled.outputFormatOptions
  end.

Definition disabled (v : Variant) : Ui.State (Format v) -> bool :=
  match v with
  | plainCss => PlainCss.disabled
  | styled => Styled.disabled
  end.

Definition handleConvert {Client BaseUnit LibState : Type}
    (amf : Amf.Library Client BaseUnit LibState) (v : Variant)
  : Ui.M (Format v) Client BaseUnit LibState unit :=
  match v with
  | plainCss => PlainCss.handleConvert amf
  | styled => Styled.handleConvert amf
  end.

(** ** The paths through one invocation *)

(** The configuration [getClient] asks the library for. *)
Definition configuration (v : Variant) : Format v -> Amf.Configuration :=
  match v with
  | plainCss => fun format =>
      match format with
      | PlainCss.RAML_1_0 => Amf.RAML10
      | PlainCss.OAS_2_0 => Amf.OAS20
      | PlainCss.OAS_3_0 => Amf.OAS30
      end
  | styled => fun format =>
      match format with
      | Styled.RAML_0_8 => Amf.RAML08
      | Styled.RAML_1_0 => Amf.RAML10
      | Styled.OAS_2_0 => Amf.OAS20
      | Styled.OAS_3_0 => Amf.OAS30
      end
  end.

Section Paths.
Import Js Amf Ui.
Context {Client BaseUnit LibState : Type}.
Variable amf : Library Client BaseUnit LibState.
Variable v : Variant.
Variable s : State (Format v).
Variable l : LibState.
Local Abbreviation Event := (Event Client BaseUnit).
Local Abbreviation World := (World (Format v) Client BaseUnit LibState).

(** The three setter calls that open an attempt, and the state they leave. *)
Definition prologue : list Event :=
  [SetLoading true; SetError ""; SetOutput ""].

Definition started : State (Format v) :=
  withOutput "" (withError "" (withLoading true s)).

(** What the [catch] and [finally] clauses do with a thrown value: when it
    converts to a text, they set the error and complete normally; when the
    conversion throws, no error is set and the handler throws in its turn.
    The loading flag is reset either way. *)
Definition conversionError (text : string) : string :=
  "Conversion error: " ++ text.

Definition caught (e : Value) : list Event :=
  match v with
  | plainCss => []
  | styled => [ConsoleError "Conversion error:" e]
  end
  ++ match describe e with
     | Returns text => [SetError (conversionError text)]
     | Throws _ => []
     end
  ++ [SetLoading false].

Definition failed (e : Value) : State (Format v) :=
  withLoading false
    match describe e with
    | Returns text => withError (conversionError text) started
    | Throws _ => started
    end.

Definition settled (e : Value) : Completion unit :=
  match describe e with
  | Returns _ => Normal tt
  | Throws e' => Throw e'
  end.

(** The parse call the input mode selects. *)
Definition parseCall (c : Client)
  : LibState -> Outcome (AMFResult BaseUnit) * LibState :=
  match inputMode s with
  | url => parseDocument amf c (input s)
  | content => parseContent amf c (input s) "application/yaml"
  end.

Definition parseEvent (c : Client) (r : Outcome (AMFResult BaseUnit)) : Event :=
  match inputMode s with
  | url => ParseDocument c (input s) r
  | content => ParseContent c (input s) "application/yaml" r
  end.

Definition parsingErrors (r : AMFResult BaseUnit) : string :=
  "Parsing errors:" ++ LF ++ messages (results r).

Definition warned (r : AMFResult BaseUnit) : list Event :=
  if nonEmpty (results r)
  then [ConsoleWarn "Transform warnings:" (messages (results r))]
  else [].

Definition mimeType : string :=
  if startsWith "RAML" (toString v (outputFormat s))
  then "application/yaml" else "application/json".

Definition inputConfiguration : Configuration :=
  configuration v (inputFormat s).

Definition outputConfiguration : Configuration :=
  configuration v (outputFormat s).

(** Both clients were handed out: the library went from [l] to [l2]. *)
Definition Selected (ic oc : Client) (l2 : LibState) : Prop :=
  exists l1,
    baseUnitClient amf inputConfiguration l = (Returns ic, l1) /\
    baseUnitClient amf outputConfiguration l1 = (Returns oc, l2).

Definition selection (ic oc : Client) : list Event :=
  [BaseUnitClient inputConfiguration (Returns ic);
   BaseUnitClient outputConfiguration (Returns oc)].

(** [Run c w]: the invocation on [s] and [l] completes with [c] and leaves
    [w].  One constructor per path through the handler. *)
Inductive Run : Completion unit -> World -> Prop :=
| Guarded :
    truthy (trim (input s)) = false ->
    Run Return
      {| ui := withError "Please provide input" s;
         lib := l;
         trace := [SetError "Please provide input"] |}
| InputClientThrew e l1 :
    truthy (trim (input s)) = true ->
    baseUnitClient amf inputConfiguration l = (Throws e, l1) ->
    Run (settled e)
      {| ui := failed e;
         lib := l1;
         trace := prologue
                  ++ [BaseUnitClient inputConfiguration (Throws e)]
                  ++ caught e |}
| OutputClientThrew ic e l1 l2 :
    truthy (trim (input s)) = true ->
    baseUnitClient amf inputConfiguration l = (Returns ic, l1) ->
    baseUnitClient amf outputConfiguration l1 = (Throws e, l2) ->
    Run (settled e)
      {| ui := failed e;
         lib := l2;
         trace := prologue
                  ++ [BaseUnitClient inputConfiguration (Returns ic);
                      BaseUnitClient outputConfiguration (Throws e)]
                  ++ caught e |}
| ParseThrew ic oc e l2 l3 :
    truthy (trim (input s)) = true ->
    Selected ic oc l2 ->
    parseCall ic l2 = (Throws e, l3) ->
    Run (settled e)
      {| ui := failed e;
         lib := l3;
         trace := prologue ++ selection ic oc
                  ++ [parseEvent ic (Throws e)]
                  ++ caught e |}
| ParseFlagged ic oc r l2 l3 :
    truthy (trim (input s)) = true ->
    Selected ic oc l2 ->
    parseCall ic l2 = (Returns r, l3) ->
    nonEmpty (results r) = true ->
    Run Return
      {| ui := withLoading false (withError (parsingErrors r) started);
         lib := l3;
         trace := prologue ++ selection ic oc
                  ++ [parseEvent ic (Returns r);
                      SetError (parsingErrors r);
                      SetLoading false;
                      SetLoading false] |}
| TransformThrew ic oc r e l2 l3 l4 :
    truthy (trim (input s)) = true ->
    Selected ic oc l2 ->
    parseCall ic l2 = (Returns r, l3) ->
    nonEmpty (results r) = false ->
    transform amf oc (baseUnit r) Compatibility l3 = (Throws e, l4) ->
    Run (settled e)
      {| ui := failed e;
         lib := l4;
         trace := prologue ++ selection ic oc
                  ++ [parseEvent ic (Returns r);
                      Transform oc (baseUnit r) Compatibility (Throws e)]
                  ++ caught e |}
| RenderThrew ic oc r t e l2 l3 l4 l5 :
    truthy (trim (input s)) = true ->
    Selected ic oc l2 ->
    parseCall ic l2 = (Returns r, l3) ->
    nonEmpty (results r) = false ->
    transform amf oc (baseUnit r) Compatibility l3 = (Returns t, l4) ->
    render amf oc (baseUnit t) mimeType l4 = (Throws e, l5) ->
    Run (settled e)
      {| ui := failed e;
         lib := l5;
         trace := prologue ++ selection ic oc
                  ++ [parseEvent ic (Returns r);
                      Transform oc (baseUnit r) Compatibility (Returns t)]
                  ++ warned t
                  ++ [Render oc (baseUnit t) mimeType (Throws e)]
                  ++ caught e |}
| Converted ic oc r t text l2 l3 l4 l5 :
    truthy (trim (input s)) = true ->
    Selected ic oc l2 ->
    parseCall ic l2 = (Returns r, l3) ->
    nonEmpty (results r) = false ->
    transform amf oc (baseUnit r) Compatibility l3 = (Returns t, l4) ->
    render amf oc (baseUnit t) mimeType l4 = (Returns text, l5) ->
    Run (Normal tt)
      {| ui := withLoading false (withOutput text started);
         lib := l5;
         trace := prologue ++ selection ic oc
                  ++ [parseEvent ic (Returns r);
                      Transform oc (baseUnit r) Compatibility (Returns t)]
                  ++ warned t
                  ++ [Render oc (baseUnit t) mimeType (Returns text);
                      SetOutput text;
                      SetLoading false] |}.

End Paths.

(** ** A scripted stand-in for the library

    Clients are their configurations, units are strings, and the hidden
    state counts the calls made so far.  What the parse, transform and render
    steps answer is fixed by the script. *)

Module Scripted.
Import Js Amf Ui.

Record Script : Type :=
  { onClient : Configuration -> Outcome Configuration;
    onParse : Outcome (AMFResult string);
    onTransform : Outcome (AMFResult string);
    onRender : Outcome string }.

Definition library (sc : Script) : Library Configuration string nat :=
  {| baseUnitClient := fun cfg n => (onClient sc cfg, S n);
     parseDocument := fun _ _ n => (onParse sc, S n);
     parseContent := fun _ _ _ n => (onParse sc, S n);
     transform := fun _ _ _ n => (onTransform sc, S n);
     render := fun _ _ _ n => (onRender sc, S n) |}.

Definition clean (u : string) : AMFResult string :=
  {| baseUnit := u; results := Some [] |}.

Definition flagged (u : string) (msgs : list string) : AMFResult string :=
  {| baseUnit := u;
     results := Some (map (fun m => {| message := m |}) msgs) |}.

(** Every step succeeds without diagnostics. *)
Definition happy : Script :=
  {| onClient := Returns;
     onParse := Returns (clean "parsed");
     onTransform := Returns (clean "transformed");
     onRender := Returns "rendered text" |}.

(** The parse step reports two diagnostics. *)
Definition badParse : Script :=
  {| onClient := Returns;
     onParse := Returns (flagged "parsed" ["unexpected key"; "missing title"]);
     onTransform := Returns (clean "transformed");
     onRender := Returns "rendered text" |}.

(** The transform step reports a diagnostic. *)
Definition noisyTransform : Script :=
  {| onClient := Returns;
     onParse := Returns (clean "parsed");
     onTransform := Returns (flagged "transformed" ["lossy conversion"]);
     onRender := Returns "rendered text" |}.

(** The parse step rejects with an [Error]. *)
Definition failingFetch : Script :=
  {| onClient := Returns;
     onParse := Throws (ErrorObject "Failed to fetch");
     onTransform := Returns (clean "transformed");
     onRender := Returns "rendered text" |}.

(** The render step throws a plain string. *)
Definition failingRender : Script :=
  {| onClient := Returns;
     onParse := Returns (clean "parsed");
     onTransform := Returns (clean "transformed");
     onRender := Throws (NonError "boom") |}.

Definition form {F : Type} (i o : F) (m : InputMode) (text : string)
  : State F :=
  {| inputFormat := i; outputFormat := o; inputMode := m; input := text;
     output := ""; loading := false; error := "" |}.

(** Forms a user can have filled in. *)
Definition ramlPaste : State (Format styled) :=
  form Styled.RAML_1_0 Styled.OAS_3_0 content "#%RAML 1.0".

Definition swaggerLink : State (Format plainCss) :=
  form PlainCss.OAS_2_0 PlainCss.RAML_1_0 url "https://example.com/api.json".

Definition blank : State (Format styled) :=
  form Styled.OAS_2_0 Styled.OAS_3_0 url "   ".

(** A component that already shows the result of an earlier conversion and
    whose input field has since been emptied. *)
Definition emptied : State (Format styled) :=
  {| inputFormat := Styled.OAS_2_0; outputFormat := Styled.OAS_3_0;
     inputMode := url; input := "";
     output := "swagger: 2.0"; loading := false; error := "" |}.

(** One click on a form, against a script, with a library that has not been
    called yet. *)
Definition run {v : Variant} (sc : Script) (s : State (Format v))
  : Completion unit * World (Format v) Configuration string nat :=
  invoke (handleConvert (library sc) v) s 0.

End Scripted.

(** ** The rest of the component: initial state, form controls, the page

    Besides [handleConvert], [App] declares its seven state cells with their
    initial values and returns the page: two format pickers, the mode radio
    buttons, the input control, the read-only output area, the convert
    button and the error box.  Both variants wire the controls the same way;
    they differ in the formats on offer and in one placeholder. *)

Module Page.
Import Js Amf Ui.

(** The [useState] initial values (lines 16-22 and 216-222). *)
Definition initial (v : Variant) : State (Format v) :=
  match v with
  | plainCss =>
      {| inputFormat := PlainCss.OAS_2_0; outputFormat := PlainCss.OAS_3_0;
         inputMode := url; input := ""; output := "";
         loading := false; error := "" |}
  | styled =>
      {| inputFormat := Styled.OAS_2_0; outputFormat := Styled.OAS_3_0;
         inputMode := url; input := ""; output := "";
         loading := false; error := "" |}
  end.

(** The cells written by [setInputFormat], [setOutputFormat], [setInputMode]
    and [setInput]. *)
Definition withInputFormat {F : Type} (format : F) (s : State F) : State F :=
  {| inputFormat := format; outputFormat := outputFormat s;
     inputMode := inputMode s; input := input s;
     output := output s; loading := loading s; error := error s |}.

Definition withOutputFormat {F : Type} (format : F) (s : State F) : State F :=
  {| inputFormat := inputFormat s; outputFormat := format;
     inputMode := inputMode s; input := input s;
     output := output s; loading := loading s; error := error s |}.

Definition withInputMode {F : Type} (mode : InputMode) (s : State F)
  : State F :=
  {| inputFormat := inputFormat s; outputFormat := outputFormat s;
     inputMode := mode; input := input s;
     output := output s; loading := loading s; error := error s |}.

Definition withInput {F : Type} (text : string) (s : State F) : State F :=
  {| inputFormat := inputFormat s; outputFormat := outputFormat s;
     inputMode := inputMode s; input := text;
     output := output s; loading := loading s; error := error s |}.

(** What a user can do to the page: pick an option of either [<select>],
    check either radio button, edit the input control, click the convert
    button. *)
Inductive Action (v : Variant) : Type :=
| SelectInputFormat (format : Format v)
| SelectOutputFormat (format : Format v)
| ChooseInputMode (mode : InputMode)
| EditInput (text : string)
| ClickConvert.
Arguments SelectInputFormat {v} format.
Arguments SelectOutputFormat {v} format.
Arguments ChooseInputMode {v} mode.
Arguments EditInput {v} text.
Arguments ClickConvert {v}.


(** The error box: [{error && (...{error}...)}]. *)
Definition errorBox {F : Type} (s : State F) : option string :=
  if truthy (error s) then Some (error s) else None.

Section Reacting.
Context {Client BaseUnit LibState : Type}.
Variable amf : Library Client BaseUnit LibState.
Variable v : Variant.

(** The [onChange] and [onClick] handlers of the page.  A disabled button
    dispatches no click.  Actions are taken one at a time: a click runs
    [handleConvert] to its end before the next action. *)
Definition react (a : Action v) (s : State (Format v)) (l : LibState)
  : State (Format v) * LibState :=
  match a with
  | SelectInputFormat format => (withInputFormat format s, l)
  | SelectOutputFormat format => (withOutputFormat format s, l)
  | ChooseInputMode mode => (withInputMode mode s, l)
  | EditInput text => (withInput text s, l)
  | ClickConvert =>
      if disabled v s then (s, l)
      else
        let w := snd (invoke (handleConvert amf v) s l) in
        (ui w, lib w)
  end.

(** A session: actions taken in order, from a given state. *)
Fixpoint session (actions : list (Action v)) (s : State (Format v))
    (l : LibState) : State (Format v) * LibState :=
  match actions with
  | [] => (s, l)
  | a :: rest => let (s', l') := react a s l in session rest s' l'
  end.

End Reacting.
End Page.

(** ** The order of the library calls *)

Module Protocol.
Import Js Amf Ui.

Inductive Call : Type :=
| SelectClient (cfg : Configuration)
| Parse
| Convert
| RenderText.

(** The steps of one attempt on a form, in the order the handler takes them:
    the client for the input format, the client for the output format, the
    parse, the transformation, the rendering. *)
Definition steps (v : Variant) (s : State (Format v)) : list Call :=
  [SelectClient (configuration v (inputFormat s));
   SelectClient (configuration v (outputFormat s));
   Parse; Convert; RenderText].

Definition callOf {Client BaseUnit : Type} (e : Event Client BaseUnit)
  : option Call :=
  match e with
  | BaseUnitClient cfg _ => Some (SelectClient cfg)
  | ParseDocument _ _ _ | ParseContent _ _ _ _ => Some Parse
  | Transform _ _ _ _ => Some Convert
  | Render _ _ _ _ => Some RenderText
  | _ => None
  end.

(** The library calls of a trace, in order. *)
Definition calls {Client BaseUnit : Type} (t : list (Event Client BaseUnit))
  : list (Event Client BaseUnit) :=
  filter isLibraryCall t.

End Protocol.

(** ** From the plain-CSS variant to the styled one *)

Module Upgrade.
Import Js Amf Ui.

(** Each format of the plain-CSS variant is a format of the styled variant,
    under the same string literal. *)
Definition format (f : PlainCss.Format) : Styled.Format :=
  match f with
  | PlainCss.RAML_1_0 => Styled.RAML_1_0
  | PlainCss.OAS_2_0 => Styled.OAS_2_0
  | PlainCss.OAS_3_0 => Styled.OAS_3_0
  end.

Definition state (s : State PlainCss.Format) : State Styled.Format :=
  {| inputFormat := format (inputFormat s);
     outputFormat := format (outputFormat s);
     inputMode := inputMode s; input := input s;
     output := output s; loading := loading s; error := error s |}.

Definition isConsoleError {Client BaseUnit : Type}
    (e : Event Client BaseUnit) : bool :=
  match e with ConsoleError _ _ => true | _ => false end.

End Upgrade.

(** Further forms for the scripted library. *)
Module Samples.
Import Js Amf Ui Scripted.

(** A link typed with blanks around it. *)
Definition paddedLink : State (Format styled) :=
  form Styled.OAS_3_0 Styled.RAML_0_8 url "  https://example.com/api.yaml ".

(** The same form as [swaggerLink], showing what an earlier failure left. *)
Definition swaggerLinkAfterFailure : State (Format plainCss) :=
  {| inputFormat := PlainCss.OAS_2_0; outputFormat := PlainCss.RAML_1_0;
     inputMode := url; input := "https://example.com/api.json";
     output := ""; loading := false;
     error := "Conversion error: Failed to fetch" |}.

(** A parse result whose diagnostics are missing altogether. *)
Definition bare (u : string) : AMFResult string :=
  {| baseUnit := u; results := None |}.

(** The fetch rejects with [Object.create(null)]: [String] of it throws a
    [TypeError]. *)
Definition unprintable : Script :=
  {| onClient := Returns;
     onParse :=
       Throws
         (NonError
            (Fails (ErrorObject "Cannot convert object to primitive value")));
     onTransform := Returns (clean "transformed");
     onRender := Returns "rendered text" |}.

Definition bareParse : Script :=
  {| onClient := Returns;
     onParse := Returns (bare "parsed");
     onTransform := Returns (clean "transformed");
     onRender := Returns "rendered text" |}.

End Samples.

Example trim_spaces : Js.trim "  a b  " = "a b".
Proof. reflexivity. Qed.

Example trim_blank : Js.trim (" " ++ Js.LF ++ " ") = "".
Proof. reflexivity. Qed.

Example trim_wide_spaces :
  Js.trim (Js.utf8 [226; 128; 131] ++ " a" ++ Js.utf8 [227; 128; 128]
           ++ Js.utf8 [239; 187; 191] ++ Js.LF)
  = "a".
Proof. reflexivity. Qed.

Example trim_wide_blank :
  Js.trim (Js.utf8 [226; 128; 131] ++ Js.utf8 [239; 187; 191]) = "".
Proof. reflexivity. Qed.

Example trim_keeps_inner_and_other_bytes :
  Js.trim (" a" ++ Js.utf8 [227; 128; 128] ++ "b" ++ Js.utf8 [194; 133] ++ " ")
  = "a" ++ Js.utf8 [227; 128; 128] ++ "b" ++ Js.utf8 [194; 133].
Proof. reflexivity. Qed.

Example happy_run :
  Ui.invoke (Styled.handleConvert (Scripted.library Scripted.happy))
    (Scripted.form Styled.OAS_2_0 Styled.RAML_1_0 Ui.content "swagger: 2.0") 0
  = (Js.Normal tt,
     {| Ui.ui := {| Ui.inputFormat := Styled.OAS_2_0;
                    Ui.outputFormat := Styled.RAML_1_0;
                    Ui.inputMode := Ui.content;
                    Ui.input := "swagger: 2.0";
                    Ui.output := "rendered text";
                    Ui.loading := false;
                    Ui.error := "" |};
        Ui.lib := 5;
        Ui.trace :=
          [ Ui.SetLoading true; Ui.SetError ""; Ui.SetOutput "";
            Ui.BaseUnitClient Amf.OAS20 (Js.Returns Amf.OAS20);
            Ui.BaseUnitClient Amf.RAML10 (Js.Returns Amf.RAML10);
            Ui.ParseContent Amf.OAS20 "swagger: 2.0" "application/yaml"
              (Js.Returns (Scripted.clean "parsed"));
            Ui.Transform Amf.RAML10 "parsed" Amf.Compatibility
              (Js.Returns (Scripted.clean "transformed"));
            Ui.Render Amf.RAML10 "transformed" "application/yaml"
              (Js.Returns "rendered text");
            Ui.SetOutput "rendered text";
            Ui.SetLoading false ] |}).
Proof. reflexivity. Qed.

Example flagged_parse_run :
  Scripted.run Scripted.badParse Scripted.swaggerLink
  = (Js.Return,
     {| Ui.ui := {| Ui.inputFormat := PlainCss.OAS_2_0;
                    Ui.outputFormat := PlainCss.RAML_1_0;
                    Ui.inputMode := Ui.url;
                    Ui.input := "https://example.com/api.json";
                    Ui.output := "";
                    Ui.loading := false;
                    Ui.error := "Parsing errors:" ++ Js.LF ++ "unexpected key"
                                ++ Js.LF ++ "missing title" |};
        Ui.lib := 3;
        Ui.trace :=
          [ Ui.SetLoading true; Ui.SetError ""; Ui.SetOutput "";
            Ui.BaseUnitClient Amf.OAS20 (Js.Returns Amf.OAS20);
            Ui.BaseUnitClient Amf.RAML10 (Js.Returns Amf.RAML10);
            Ui.ParseDocument Amf.OAS20 "https://example.com/api.json"
              (Js.Returns
                 (Scripted.flagged "parsed"
                    ["unexpected key"; "missing title"]));
            Ui.SetError ("Parsing errors:" ++ Js.LF ++ "unexpected key"
                         ++ Js.LF ++ "missing title");
            Ui.SetLoading false;
            Ui.SetLoading false ] |}).
Proof. reflexivity. Qed.

Example failing_render_run :
  Ui.trace (snd (Scripted.run Scripted.failingRender Scripted.ramlPaste))
  = [ Ui.SetLoading true; Ui.SetError ""; Ui.SetOutput "";
      Ui.BaseUnitClient Amf.RAML10 (Js.Returns Amf.RAML10);
      Ui.BaseUnitClient Amf.OAS30 (Js.Returns Amf.OAS30);
      Ui.ParseContent Amf.RAML10 "#%RAML 1.0" "application/yaml"
        (Js.Returns (Scripted.clean "parsed"));
      Ui.Transform Amf.OAS30 "parsed" Amf.Compatibility
        (Js.Returns (Scripted.clean "transformed"));
      Ui.Render Amf.OAS30 "transformed" "application/json"
        (Js.Throws (Js.NonError (Js.Text "boom")));
      Ui.ConsoleError "Conversion error:" (Js.NonError (Js.Text "boom"));
      Ui.SetError "Conversion error: boom";
      Ui.SetLoading false ].
Proof. reflexivity. Qed.

(** ** The handler follows exactly one path *)

Section Characterisation.
Import Js Amf Ui.
Context {Client BaseUnit LibState : Type}.
Variable amf : Library Client BaseUnit LibState.

Lemma getClient_plainCss (format : PlainCss.Format) :
  PlainCss.getClient amf format
  = baseUnitClient_ amf (configuration plainCss format).
Proof. destruct format; reflexivity. Qed.

Lemma getClient_styled (format : Styled.Format) :
  Styled.getClient amf format
  = baseUnitClient_ amf (configuration styled format).
Proof. destruct format; reflexivity. Qed.

Lemma Run_same v (s : State (Format v)) l c c' w w' :
  Run amf v s l c w -> c = c' -> w = w' -> Run amf v s l c' w'.
Proof. intros R <- <-. exact R. Qed.

(** Symbolic execution of a handler: unfold the combinators, then split on
    the guard, the input mode, the diagnostics tests and every library
    answer. *)
Ltac unfold_handler :=
  cbv [invoke bind closure when tryCatchFinally setLoading setError setOutput
       consoleWarn consoleError return_ ret evaluate baseUnitClient_
       parseDocument_ parseContent_ transform_ render_ call emit update];
  cbn [ui lib trace app fst snd negb].

Ltac split_on x := destruct x as [[?|?] ?] eqn:?.

Ltac split_handler :=
  match goal with
  | |- context [if negb (truthy ?x) then _ else _] => destruct (truthy x) eqn:?
  | |- context [match inputMode ?s with url => _ | content => _ end] =>
      destruct (inputMode s) eqn:?
  | |- context [if nonEmpty ?x then _ else _] => destruct (nonEmpty x) eqn:?
  | |- context [baseUnitClient ?a ?c ?l] => split_on (baseUnitClient a c l)
  | |- context [parseDocument ?a ?c ?u ?l] => split_on (parseDocument a c u l)
  | |- context [parseContent ?a ?c ?u ?m ?l] =>
      split_on (parseContent a c u m l)
  | |- context [transform ?a ?c ?u ?p ?l] => split_on (transform a c u p l)
  | |- context [render ?a ?c ?u ?m ?l] => split_on (render a c u m l)
  | |- context [describe ?e] => destruct (describe e) eqn:?
  end.

Ltac exec_handler := unfold_handler; repeat (split_handler; unfold_handler).

(** Closing a branch: pick the path, feed it the recorded library answers,
    and compare the worlds. *)
Ltac premise :=
  cbv [Selected parseCall inputConfiguration outputConfiguration mimeType
       toString Format];
  repeat match goal with
         | H : inputMode _ = _ |- _ => rewrite H
         end;
  first [ eassumption | eexists; split; eassumption ].

Ltac same_world :=
  cbv [parseEvent warned parsingErrors caught failed settled Format];
  repeat match goal with
         | H : inputMode _ = _ |- _ => rewrite H
         | H : nonEmpty _ = _ |- _ => rewrite H
         | H : describe _ = _ |- _ => rewrite H
         end;
  reflexivity.

Ltac by_path path :=
  solve [ eapply Run_same; [ eapply path; premise | same_world .. ] ].

Ltac by_some_path v s l :=
  first [ by_path (Guarded amf v s l)
        | by_path (InputClientThrew amf v s l)
        | by_path (OutputClientThrew amf v s l)
        | by_path (ParseThrew amf v s l)
        | by_path (ParseFlagged amf v s l)
        | by_path (TransformThrew amf v s l)
        | by_path (RenderThrew amf v s l)
        | by_path (Converted amf v s l) ].

Lemma PlainCss_handleConvert_Run (s : State PlainCss.Format) (l : LibState) :
  Run amf plainCss s l
    (fst (invoke (PlainCss.handleConvert amf) s l))
    (snd (invoke (PlainCss.handleConvert amf) s l)).
Proof.
  unfold PlainCss.handleConvert. unfold_handler.
  rewrite !getClient_plainCss.
  exec_handler; by_some_path plainCss s l.
Qed.

Lemma Styled_handleConvert_Run (s : State Styled.Format) (l : LibState) :
  Run amf styled s l
    (fst (invoke (Styled.handleConvert amf) s l))
    (snd (invoke (Styled.handleConvert amf) s l)).
Proof.
  unfold Styled.handleConvert. unfold_handler.
  rewrite !getClient_styled.
  exec_handler; by_some_path styled s l.
Qed.

Lemma handleConvert_Run v (s : State (Format v)) (l : LibState) c w :
  invoke (handleConvert amf v) s l = (c, w) -> Run amf v s l c w.
Proof.
  intros E.
  change c with (fst (c, w)). change w with (snd (c, w)) at 2.
  rewrite <- E.
  destruct v; [apply PlainCss_handleConvert_Run | apply Styled_handleConvert_Run].
Qed.

End Characterisation.

(** * Properties of the convert handler *)

(** Case analysis on the events of a path's trace. *)
Ltac open_trace :=
  cbn [Ui.trace Ui.ui Ui.lib] in *;
  unfold prologue, selection, caught, failed, settled, warned, parseEvent
    in *.

Ltac split_trace v s :=
  destruct v, (Ui.inputMode s);
  repeat match goal with
         | H : context [if Amf.nonEmpty ?x then _ else _] |- _ =>
             destruct (Amf.nonEmpty x) eqn:?
         | |- context [if Amf.nonEmpty ?x then _ else _] =>
             destruct (Amf.nonEmpty x) eqn:?
         | H : context [match Js.describe ?e with _ => _ end] |- _ =>
             destruct (Js.describe e) eqn:?
         | |- context [match Js.describe ?e with _ => _ end] =>
             destruct (Js.describe e) eqn:?
         end.

Ltac members H :=
  cbn [app In] in H;
  repeat (destruct H as [H | H]);
  try contradiction; try subst.

Lemma nonEmpty_cons {A : Type} (xs : list A) :
  xs <> [] -> Amf.nonEmpty (Some xs) = true.
Proof. destruct xs; [congruence | reflexivity]. Qed.

Lemma truthy_empty (x : string) : Js.truthy x = false <-> x = "".
Proof. destruct x; cbn; split; congruence. Qed.

Lemma truthy_nonempty (x : string) : Js.truthy x = true <-> x <> "".
Proof. destruct x; cbn; split; congruence. Qed.

(** What the state after a caught exception holds, whether or not the thrown
    value converted to a text. *)
Lemma failed_output v (s : Ui.State (Format v)) e :
  Ui.output (failed v s e) = "".
Proof. unfold failed. destruct (Js.describe e); reflexivity. Qed.

Lemma failed_form v (s : Ui.State (Format v)) e :
  Ui.inputFormat (failed v s e) = Ui.inputFormat s /\
  Ui.outputFormat (failed v s e) = Ui.outputFormat s /\
  Ui.inputMode (failed v s e) = Ui.inputMode s /\
  Ui.input (failed v s e) = Ui.input s.
Proof. unfold failed. destruct (Js.describe e); repeat split. Qed.

Section Escapes.
Import Js Amf Ui.
Context {Client BaseUnit LibState : Type}.
Variable amf : Library Client BaseUnit LibState.

(** The handler only completes by [throw] on the way out of its [catch]
    clause: a library call threw a value, and converting that value to a
    text threw in its turn. *)
Lemma Run_throws v (s : State (Format v)) l c w :
  Run amf v s l c w ->
  forall e', c = Throw e' ->
    exists ev e,
      In ev (trace w) /\ thrown ev = Some e /\ describe e = Throws e'.
Proof.
  intros R e' Hc.
  destruct R as [ | e | ic e | ic oc e | | ic oc p e | ic oc p t e | ];
    try discriminate Hc;
    unfold settled in Hc; destruct (describe e) eqn:Hd;
    try discriminate Hc; injection Hc as ->; cbn [trace].
  - exists (BaseUnitClient (inputConfiguration v s) (Throws e)), e.
    split; [ unfold prologue; cbn [app In]; tauto | split; trivial ].
  - exists (BaseUnitClient (outputConfiguration v s) (Throws e)), e.
    split; [ unfold prologue; cbn [app In]; tauto | split; trivial ].
  - exists (parseEvent v s ic (Throws e)), e.
    split; [ unfold prologue, selection; cbn [app In]; tauto | ].
    split; [ unfold parseEvent; destruct (inputMode s); reflexivity | trivial ].
  - exists (Transform oc (baseUnit p) Compatibility (Throws e)), e.
    split; [ unfold prologue, selection; cbn [app In]; tauto
           | split; trivial ].
  - exists (Render oc (baseUnit t) (mimeType v s) (Throws e)), e.
    split; [ unfold prologue, selection; rewrite !in_app_iff; cbn [In]; tauto
           | split; trivial ].
Qed.

End Escapes.

Section Claims.
Import Js Amf Ui.
Context {Client BaseUnit LibState : Type}.
Variable amf : Library Client BaseUnit LibState.

(** C1.  When the parse step of an attempt returns a non-empty diagnostic
    list, the handler returns before any transform or render call, the output
    is empty, and the error is ['Parsing errors:'], a line feed, and the
    diagnostic messages joined by line feeds. *)
Theorem parse_diagnostics_abort
    v (s : State (Format v)) l c w ev r ds :
  invoke (handleConvert amf v) s l = (c, w) ->
  In ev (trace w) ->
  parsed ev = Some r ->
  results r = Some ds ->
  ds <> [] ->
  c = Return /\
  output (ui w) = "" /\
  error (ui w) = "Parsing errors:" ++ LF ++ join LF (map message ds) /\
  (forall e, In e (trace w) -> isTransform e = false /\ isRender e = false).
Proof.
  intros E Hin Hev Hres Hds.
  apply nonEmpty_cons in Hds. rewrite <- Hres in Hds.
  apply handleConvert_Run in E.
  destruct E; open_trace; split_trace v s; members Hin;
    cbn [parsed] in Hev; try discriminate;
    injection Hev as ->; try congruence.
  all: repeat split; try reflexivity;
    try (cbn; unfold parsingErrors, messages; rewrite Hres; reflexivity).
  all: match goal with H : In _ _ |- _ => members H; reflexivity end.
Qed.

(** C2, as amended.  After an invocation whose input does not trim to the
    empty string, whatever the mode and the library's answers, the output and
    the error are not both non-empty.  When the input does trim to the empty
    string, the error is ['Please provide input'] and the output keeps the
    value it had, so the two exclude each other only when the output was
    empty before. *)
Theorem output_error_exclusive v (s : State (Format v)) l c w :
  invoke (handleConvert amf v) s l = (c, w) ->
  (trim (input s) <> "" -> output (ui w) = "" \/ error (ui w) = "") /\
  (trim (input s) = "" ->
     output (ui w) = output s /\ error (ui w) = "Please provide input").
Proof.
  intros E.
  apply handleConvert_Run in E.
  destruct E as [G | ? ? G | ? ? ? ? G | ? ? ? ? ? G | ? ? ? ? ? G
                 | ? ? ? ? ? ? ? G | ? ? ? ? ? ? ? ? ? G
                 | ? ? ? ? ? ? ? ? ? G ];
    [ apply truthy_empty in G | apply truthy_nonempty in G .. ];
    (split; [ intros Hne | intros Hempty ]); try contradiction; cbn [ui].
  - split; reflexivity.
  - left; apply failed_output.
  - left; apply failed_output.
  - left; apply failed_output.
  - left; reflexivity.
  - left; apply failed_output.
  - left; apply failed_output.
  - right; reflexivity.
Qed.

(** C4.  When the transform step returns a non-empty diagnostic list, the
    only thing done with it is a [console.warn] of the joined messages: the
    next effect is the render call on the transformed unit, and what that
    call returns becomes the output, with no error. *)
Theorem transform_diagnostics_warn
    v (s : State (Format v)) l c w ev t ds :
  invoke (handleConvert amf v) s l = (c, w) ->
  In ev (trace w) ->
  transformed ev = Some t ->
  results t = Some ds ->
  ds <> [] ->
  exists before after oc mediaType r,
    trace w
      = (before
         ++ [ev;
             ConsoleWarn "Transform warnings:" (join LF (map message ds));
             Render oc (baseUnit t) mediaType r]
         ++ after)%list /\
    forall text, r = Returns text ->
      c = Normal tt /\ output (ui w) = text /\ error (ui w) = "".
Proof.
  intros E Hin Hev Hres Hds.
  apply nonEmpty_cons in Hds. rewrite <- Hres in Hds.
  apply handleConvert_Run in E.
  destruct E as [ | | | | | | ic oc r t' e | ic oc r t' text ];
    open_trace; split_trace v s; members Hin;
    cbn [transformed] in Hev; try discriminate;
    injection Hev as ->; try congruence.
  all: unfold messages; rewrite Hres.
  all: eexists [_; _; _; _; _; _]%list, _, _, _, _;
    (split; [ cbn [app]; reflexivity | ]).
  all: intros text' [=]; subst; repeat split; reflexivity.
Qed.

(** C5, as amended.  When every value thrown by a library call of the
    invocation converts to a text (the message of an [Error], the string
    form of anything else), no exception leaves the handler, and the error is
    ['Conversion error: '] followed by that text. *)
Theorem exceptions_caught v (s : State (Format v)) l c w :
  invoke (handleConvert amf v) s l = (c, w) ->
  (forall ev e, In ev (trace w) -> thrown ev = Some e ->
     exists text, describe e = Returns text) ->
  (forall e, c <> Throw e) /\
  (forall ev e text, In ev (trace w) -> thrown ev = Some e ->
     describe e = Returns text ->
     error (ui w) = "Conversion error: " ++ text).
Proof.
  intros E Htext. apply handleConvert_Run in E. split.
  - intros e' Hc.
    destruct (Run_throws _ _ _ _ _ _ E e' Hc) as (ev & e & Hin & Hev & Hd).
    destruct (Htext ev e Hin Hev) as [text Ht]. congruence.
  - intros ev e' text Hin Hev Hd.
    destruct E; open_trace; split_trace v s; members Hin;
      cbn [thrown] in Hev; try discriminate Hev;
      injection Hev as ->;
      cbn [ui error withLoading withError]; unfold conversionError;
      congruence.
Qed.

(** C6.  Every render call is made with ['application/yaml'] exactly when
    the output format is [RAML 0.8] or [RAML 1.0], and with
    ['application/json'] exactly when it is [OAS 2.0] or [OAS 3.0]. *)
Theorem render_media_type
    v (s : State (Format v)) l c w oc u mediaType r :
  invoke (handleConvert amf v) s l = (c, w) ->
  In (Render oc u mediaType r) (trace w) ->
  (mediaType = "application/yaml" <->
     In (toString v (outputFormat s)) ["RAML 0.8"; "RAML 1.0"]) /\
  (mediaType = "application/json" <->
     In (toString v (outputFormat s)) ["OAS 2.0"; "OAS 3.0"]).
Proof.
  intros E Hin.
  apply handleConvert_Run in E.
  assert (Hm : mediaType = mimeType v s).
  { destruct E; open_trace; split_trace v s; members Hin;
      try discriminate; injection Hin as <- <- <- <-; reflexivity. }
  subst mediaType. clear. unfold mimeType.
  destruct v; cbn [toString Format] in *; destruct (outputFormat s);
    cbn; split; split; intros H;
    repeat (destruct H as [H | H]); try discriminate; tauto.
Qed.

(** C8.  With an input that trims to the empty string, the handler returns
    at the guard: its only effect is [setError('Please provide input')], so no
    library call is made, the library is left as it was, and [loading] is
    neither set to [true] nor changed. *)
Theorem empty_input_no_attempt v (s : State (Format v)) l c w :
  invoke (handleConvert amf v) s l = (c, w) ->
  trim (input s) = "" ->
  c = Return /\
  trace w = [SetError "Please provide input"] /\
  (forall e, In e (trace w) ->
     isLibraryCall e = false /\ e <> SetLoading true) /\
  lib w = l /\
  loading (ui w) = loading s.
Proof.
  intros E Hempty. apply truthy_empty in Hempty. revert E.
  destruct v; cbn [handleConvert Format] in *;
    unfold PlainCss.handleConvert, Styled.handleConvert, invoke, bind, closure,
      when; cbn [ui]; rewrite Hempty; cbn.
  all: intros [= <- <-]; cbn; repeat split; try reflexivity.
  all: match goal with
       | H : _ = _ \/ False |- _ => destruct H as [<- | []]
       end;
    first [ reflexivity | discriminate ].
Qed.

(** C9.  In an attempt where no library call throws and the parse step
    reports no diagnostics, the error is empty afterwards and the output is
    the text the render call returned. *)
Theorem success_clears_error v (s : State (Format v)) l c w :
  invoke (handleConvert amf v) s l = (c, w) ->
  trim (input s) <> "" ->
  (forall ev e, In ev (trace w) -> thrown ev <> Some e) ->
  (forall ev r, In ev (trace w) -> parsed ev = Some r ->
     nonEmpty (results r) = false) ->
  error (ui w) = "" /\
  exists oc u mediaType text,
    In (Render oc u mediaType (Returns text)) (trace w) /\
    output (ui w) = text.
Proof.
  intros E Hne Hthrow Hdiag.
  apply handleConvert_Run in E.
  destruct E as [G | e ? ? ? | ic e ? ? ? ? ? | ic oc e ? ? ? ? ?
                 | ic oc r ? ? ? ? ? Hflag | ic oc r e ? ? ? ? ? ? ? ?
                 | ic oc r t e ? ? ? ? ? ? ? ? ? | ic oc r t text ? ? ? ? ? ? ? ? ? ].
  - apply truthy_empty in G. contradiction.
  - exfalso. apply (Hthrow (BaseUnitClient (inputConfiguration v s) (Throws e)) e);
      [ open_trace; cbn [app In]; tauto | reflexivity ].
  - exfalso. apply (Hthrow (BaseUnitClient (outputConfiguration v s) (Throws e)) e);
      [ open_trace; cbn [app In]; tauto | reflexivity ].
  - exfalso. apply (Hthrow (parseEvent v s ic (Throws e)) e);
      [ open_trace; cbn [app In]; tauto
      | unfold parseEvent; destruct (inputMode s); reflexivity ].
  - exfalso. rewrite (Hdiag (parseEvent v s ic (Returns r)) r) in Hflag;
      [ discriminate
      | open_trace; cbn [app In]; tauto
      | unfold parseEvent; destruct (inputMode s); reflexivity ].
  - exfalso.
    apply (Hthrow (Transform oc (baseUnit r) Compatibility (Throws e)) e);
      [ open_trace; cbn [app In]; tauto | reflexivity ].
  - exfalso.
    apply (Hthrow (Render oc (baseUnit t) (mimeType v s) (Throws e)) e);
      [ open_trace; rewrite !in_app_iff; cbn [In]; tauto | reflexivity ].
  - split; [reflexivity | ].
    exists oc, (baseUnit t), (mimeType v s), text. split; [ | reflexivity].
    open_trace; rewrite !in_app_iff; cbn [In]; tauto.
Qed.

(** C10.  A [parseContent] call is only made in content mode, always on the
    raw input and always with the media type ['application/yaml'], whatever
    the input format; and in content mode, unless client selection throws,
    that call is made and is the only parse call. *)
Theorem content_mode_media_type v (s : State (Format v)) l c w :
  invoke (handleConvert amf v) s l = (c, w) ->
  (forall ic source mediaType r,
     In (ParseContent ic source mediaType r) (trace w) ->
     mediaType = "application/yaml" /\ source = input s /\
     inputMode s = content) /\
  (inputMode s = content ->
   trim (input s) <> "" ->
   (forall cfg e, ~ In (BaseUnitClient cfg (Throws e)) (trace w)) ->
   exists ic r,
     In (ParseContent ic (input s) "application/yaml" r) (trace w) /\
     forall ev, In ev (trace w) -> isParse ev = true ->
       ev = ParseContent ic (input s) "application/yaml" r).
Proof.
  intros E. apply handleConvert_Run in E. split.
  - intros ic source mediaType r Hin.
    destruct E; open_trace; split_trace v s; members Hin;
      try discriminate; injection Hin as <- <- <- <-; repeat split.
  - intros Hmode Hne Hsel.
    destruct E as [G | e ? ? ? | ic e ? ? ? ? ? | ic oc e ? ? ? ? ?
                   | ic oc r ? ? ? ? ? Hflag | ic oc r e ? ? ? ? ? ? ? ?
                   | ic oc r t e ? ? ? ? ? ? ? ? ? | ic oc r t text ? ? ? ? ? ? ? ? ? ].
    + apply truthy_empty in G. contradiction.
    + exfalso. apply (Hsel (inputConfiguration v s) e).
      open_trace; cbn [app In]; tauto.
    + exfalso. apply (Hsel (outputConfiguration v s) e).
      open_trace; cbn [app In]; tauto.
    + exists ic, (Throws e). open_trace. rewrite Hmode. split.
      * cbn [app In]; tauto.
      * intros ev Hin Hp.
        destruct v, (describe e); members Hin; try discriminate; reflexivity.
    + exists ic, (Returns r). open_trace. rewrite Hmode. split.
      * cbn [app In]; tauto.
      * intros ev Hin Hp. destruct v; members Hin; try discriminate; reflexivity.
    + exists ic, (Returns r). open_trace. rewrite Hmode. split.
      * cbn [app In]; tauto.
      * intros ev Hin Hp.
        destruct v, (describe e); members Hin; try discriminate; reflexivity.
    + exists ic, (Returns r). open_trace. rewrite Hmode. split.
      * cbn [app In]; tauto.
      * intros ev Hin Hp.
        destruct v, (nonEmpty (results t)), (describe e); members Hin;
          try discriminate; reflexivity.
    + exists ic, (Returns r). open_trace. rewrite Hmode. split.
      * cbn [app In]; tauto.
      * intros ev Hin Hp.
        destruct v, (nonEmpty (results t)); members Hin;
          try discriminate; reflexivity.
Qed.

End Claims.

(** C7.  The convert button is disabled exactly when [loading] is set or the
    input trims to the empty string. *)
Theorem convert_button_disabled v (s : Ui.State (Format v)) :
  disabled v s = true <->
  Ui.loading s = true \/ Js.trim (Ui.input s) = "".
Proof.
  destruct v; cbn [disabled];
    unfold PlainCss.disabled, Styled.disabled;
    rewrite orb_true_iff, negb_true_iff, truthy_empty; reflexivity.
Qed.

(** C3, as amended.  The pickers of the styled variant offer exactly
    [RAML 0.8], [RAML 1.0], [OAS 2.0] and [OAS 3.0]; those of the plain-CSS
    variant offer exactly [RAML 1.0], [OAS 2.0] and [OAS 3.0]; and in each
    variant the option values are the members of its [Format] type. *)
Theorem format_picker_options (p : Picker) :
  map fst (formatOptions styled p)
    = ["RAML 0.8"; "RAML 1.0"; "OAS 2.0"; "OAS 3.0"] /\
  map fst (formatOptions plainCss p) = ["RAML 1.0"; "OAS 2.0"; "OAS 3.0"] /\
  (forall v value,
     In value (map fst (formatOptions v p)) <->
     exists format : Format v, toString v format = value).
Proof.
  split; [ destruct p; reflexivity | ].
  split; [ destruct p; reflexivity | ].
  intros v value. split.
  - destruct v, p; cbn; intros H;
      repeat (destruct H as [<- | H]); try contradiction.
    all: first [ now exists PlainCss.RAML_1_0 | now exists PlainCss.OAS_2_0
               | now exists PlainCss.OAS_3_0 | now exists Styled.RAML_0_8
               | now exists Styled.RAML_1_0 | now exists Styled.OAS_2_0
               | now exists Styled.OAS_3_0 ].
  - intros [format <-]. destruct v, p, format; cbn; tauto.
Qed.

(** ** The properties at concrete runs of the scripted library *)

Section Runs.
Import Js Amf Ui Scripted.

Ltac listed := vm_compute; tauto.

Ltac each_event :=
  vm_compute;
  intros;
  repeat match goal with
         | H : _ \/ _ |- _ => destruct H as [H | H]
         | H : False |- _ => destruct H
         end;
  subst; try discriminate.

Lemma parse_diagnostics_abort_witness :
  fst (run badParse ramlPaste) = Return /\
  output (ui (snd (run badParse ramlPaste))) = "" /\
  error (ui (snd (run badParse ramlPaste)))
    = "Parsing errors:" ++ LF ++ "unexpected key" ++ LF ++ "missing title" /\
  (forall e, In e (trace (snd (run badParse ramlPaste))) ->
     isTransform e = false /\ isRender e = false).
Proof.
  apply (parse_diagnostics_abort (library badParse) styled ramlPaste 0 _ _
           (ParseContent RAML10 "#%RAML 1.0" "application/yaml"
              (Returns (flagged "parsed" ["unexpected key"; "missing title"])))
           (flagged "parsed" ["unexpected key"; "missing title"])
           [ {| message := "unexpected key" |};
             {| message := "missing title" |} ]).
  - reflexivity.
  - listed.
  - reflexivity.
  - reflexivity.
  - discriminate.
Defined.

Lemma output_error_exclusive_witness :
  output (ui (snd (run failingRender swaggerLink))) = "" \/
  error (ui (snd (run failingRender swaggerLink))) = "".
Proof.
  apply (output_error_exclusive (library failingRender) plainCss swaggerLink 0
           (fst (run failingRender swaggerLink))
           (snd (run failingRender swaggerLink))).
  - reflexivity.
  - vm_compute. discriminate.
Defined.

(** C2 as first stated does not hold: the guard leaves an earlier result in
    place next to its own message. *)
Lemma output_error_both_nonempty :
  output (ui (snd (run happy emptied)))
    = "swagger: 2.0" /\
  error (ui (snd (run happy emptied)))
    = "Please provide input" /\
  ~ (output (ui (snd (run happy emptied))) = ""
     \/ error (ui (snd (run happy emptied))) = "").
Proof.
  split; [reflexivity | split; [reflexivity | ]].
  vm_compute. intros [H | H]; discriminate H.
Qed.

Lemma transform_diagnostics_warn_witness :
  exists before after oc mediaType r,
    trace (snd (run noisyTransform swaggerLink))
      = (before
         ++ [Transform RAML10 "parsed" Compatibility
               (Returns (flagged "transformed" ["lossy conversion"]));
             ConsoleWarn "Transform warnings:" "lossy conversion";
             Render oc "transformed" mediaType r]
         ++ after)%list /\
    forall text, r = Returns text ->
      fst (run noisyTransform swaggerLink) = Normal tt /\
      output (ui (snd (run noisyTransform swaggerLink))) = text /\
      error (ui (snd (run noisyTransform swaggerLink))) = "".
Proof.
  apply (transform_diagnostics_warn (library noisyTransform) plainCss
           swaggerLink 0 _ _
           (Transform RAML10 "parsed" Compatibility
              (Returns (flagged "transformed" ["lossy conversion"])))
           (flagged "transformed" ["lossy conversion"])
           [ {| message := "lossy conversion" |} ]).
  - reflexivity.
  - listed.
  - reflexivity.
  - reflexivity.
  - discriminate.
Defined.

Lemma exceptions_caught_witness :
  (forall e, fst (run failingFetch swaggerLink) <> Throw e) /\
  error (ui (snd (run failingFetch swaggerLink)))
    = "Conversion error: Failed to fetch".
Proof.
  assert (Htext : forall ev e,
            In ev (trace (snd (run failingFetch swaggerLink))) ->
            thrown ev = Some e -> exists text, describe e = Returns text).
  { vm_compute. intros ev e Hin Hev.
    repeat (destruct Hin as [<- | Hin];
            [ first [ discriminate Hev
                    | injection Hev as <-; eexists; reflexivity ] | ]).
    contradiction. }
  destruct (exceptions_caught (library failingFetch) plainCss swaggerLink 0
              (fst (run failingFetch swaggerLink))
              (snd (run failingFetch swaggerLink)) eq_refl Htext)
    as [Hcaught Hshown].
  split; [exact Hcaught | ].
  apply (Hshown (ParseDocument OAS20 "https://example.com/api.json"
                   (Throws (ErrorObject "Failed to fetch")))
                (ErrorObject "Failed to fetch")).
  - listed.
  - reflexivity.
  - reflexivity.
Defined.

(** C5 as first stated does not hold: a thrown value that has no string
    form makes the [catch] clause throw before it sets the error. *)
Lemma unprintable_exception_escapes :
  fst (run Samples.unprintable swaggerLink)
    = Throw (ErrorObject "Cannot convert object to primitive value") /\
  error (ui (snd (run Samples.unprintable swaggerLink))) = "" /\
  ~ (forall e, fst (run Samples.unprintable swaggerLink) <> Throw e).
Proof.
  split; [ reflexivity | split; [ reflexivity | ] ].
  intros H.
  apply (H (ErrorObject "Cannot convert object to primitive value")).
  reflexivity.
Qed.

Lemma render_media_type_witness :
  ("application/json" = "application/yaml" <->
     In "OAS 3.0" ["RAML 0.8"; "RAML 1.0"]) /\
  ("application/json" = "application/json" <->
     In "OAS 3.0" ["OAS 2.0"; "OAS 3.0"]).
Proof.
  apply (render_media_type (library happy) styled ramlPaste 0
           (fst (run happy ramlPaste)) (snd (run happy ramlPaste))
           OAS30 "transformed" "application/json" (Returns "rendered text")).
  - reflexivity.
  - listed.
Defined.

Lemma empty_input_no_attempt_witness :
  fst (run happy blank) = Return /\
  trace (snd (run happy blank)) = [SetError "Please provide input"] /\
  (forall e, In e (trace (snd (run happy blank))) ->
     isLibraryCall e = false /\ e <> SetLoading true) /\
  lib (snd (run happy blank)) = 0 /\
  loading (ui (snd (run happy blank))) = false.
Proof.
  apply (empty_input_no_attempt (library happy) styled blank 0).
  - reflexivity.
  - reflexivity.
Defined.

Lemma success_clears_error_witness :
  error (ui (snd (run happy swaggerLink))) = "" /\
  exists oc u mediaType text,
    In (Render oc u mediaType (Returns text))
       (trace (snd (run happy swaggerLink))) /\
    output (ui (snd (run happy swaggerLink))) = text.
Proof.
  apply (success_clears_error (library happy) plainCss swaggerLink 0
           (fst (run happy swaggerLink)) (snd (run happy swaggerLink))).
  - reflexivity.
  - vm_compute. discriminate.
  - each_event.
  - intros ev r Hin Hev. vm_compute in Hin.
    repeat (destruct Hin as [<- | Hin];
            [ first [ discriminate Hev | injection Hev as <-; reflexivity ] | ]).
    contradiction.
Defined.

Lemma content_mode_media_type_witness :
  exists ic r,
    In (ParseContent ic "#%RAML 1.0" "application/yaml" r)
       (trace (snd (run happy ramlPaste))) /\
    forall ev, In ev (trace (snd (run happy ramlPaste))) ->
      isParse ev = true ->
      ev = ParseContent ic "#%RAML 1.0" "application/yaml" r.
Proof.
  apply (content_mode_media_type (library happy) styled ramlPaste 0
           (fst (run happy ramlPaste)) (snd (run happy ramlPaste)) eq_refl).
  - reflexivity.
  - vm_compute. discriminate.
  - each_event.
Defined.

(** C3 as first stated does not hold: neither picker of the plain-CSS
    variant offers [RAML 0.8], and its [Format] type has no such member. *)
Lemma plainCss_pickers_lack_raml08 :
  map fst (formatOptions plainCss inputPicker)
    <> ["RAML 0.8"; "RAML 1.0"; "OAS 2.0"; "OAS 3.0"] /\
  map fst (formatOptions plainCss outputPicker)
    <> ["RAML 0.8"; "RAML 1.0"; "OAS 2.0"; "OAS 3.0"] /\
  ~ (exists format : Format plainCss, toString plainCss format = "RAML 0.8").
Proof.
  split; [discriminate | split; [discriminate | ]].
  intros [[ | | ] H]; discriminate H.
Qed.

End Runs.

(** * Further properties of the component *)

(** Finding, among the events of a trace, one that meets a condition. *)
Ltac pick_event tac :=
  cbn [app];
  match goal with
  | |- exists e, In e ?t /\ _ =>
      let rec go u :=
        lazymatch u with
        | ?x :: ?rest =>
            first [ solve [ exists x; split; [ cbn [In]; tauto | tac ] ]
                  | go rest ]
        end in
      go t
  end.

(** Running a handler step by step, one case per library answer. *)
Ltac unfold_steps :=
  cbv [Ui.invoke Ui.bind Ui.closure Ui.when Ui.tryCatchFinally Ui.setLoading
       Ui.setError Ui.setOutput Ui.consoleWarn Ui.consoleError Ui.return_
       Ui.ret Ui.evaluate Ui.baseUnitClient_ Ui.parseDocument_
       Ui.parseContent_
       Ui.transform_ Ui.render_ Ui.call Ui.emit Ui.update];
  cbn [Ui.ui Ui.lib Ui.trace app fst snd negb].

Ltac answer x := destruct x as [[?|?] ?] eqn:?.

Ltac split_steps :=
  match goal with
  | |- context [match ?m with Ui.url => _ | Ui.content => _ end] =>
      destruct m eqn:?
  | |- context [if Amf.nonEmpty ?x then _ else _] =>
      destruct (Amf.nonEmpty x) eqn:?
  | |- context [Amf.baseUnitClient ?a ?c ?l] =>
      answer (Amf.baseUnitClient a c l)
  | |- context [Amf.parseDocument ?a ?c ?u ?l] =>
      answer (Amf.parseDocument a c u l)
  | |- context [Amf.parseContent ?a ?c ?u ?m ?l] =>
      answer (Amf.parseContent a c u m l)
  | |- context [Amf.transform ?a ?c ?u ?p ?l] =>
      answer (Amf.transform a c u p l)
  | |- context [Amf.render ?a ?c ?u ?m ?l] => answer (Amf.render a c u m l)
  | |- context [Js.describe ?e] => destruct (Js.describe e) eqn:?
  end.

Section Further.
Import Js Amf Ui Page Protocol.
Context {Client BaseUnit LibState : Type}.
Variable amf : Library Client BaseUnit LibState.

(** What the handler leaves after an invocation. *)
Local Abbreviation after v s l := (snd (invoke (handleConvert amf v) s l)).

Lemma handleConvert_path v (s : State (Format v)) (l : LibState) :
  Run amf v s l (fst (invoke (handleConvert amf v) s l)) (after v s l).
Proof. apply handleConvert_Run. apply surjective_pairing. Qed.

(** X1.  The handler never touches the form: whatever the library does, the
    two formats, the input mode and the input text are afterwards what they
    were before. *)
Theorem handler_keeps_form v (s : State (Format v)) (l : LibState) :
  inputFormat (ui (after v s l)) = inputFormat s /\
  outputFormat (ui (after v s l)) = outputFormat s /\
  inputMode (ui (after v s l)) = inputMode s /\
  input (ui (after v s l)) = input s.
Proof.
  destruct (handleConvert_path v s l); cbn [ui];
    try apply failed_form; repeat split.
Qed.

(** X2.  Every attempt is bracketed by the loading flag: when the input does
    not trim to the empty string, the first effect is [setLoading(true)], the
    last is [setLoading(false)], and [loading] is [false] afterwards, whether
    the attempt converted, stopped on parse diagnostics, or hit an
    exception. *)
Theorem attempt_resets_loading v (s : State (Format v)) (l : LibState) :
  trim (input s) <> "" ->
  loading (ui (after v s l)) = false /\
  exists effects,
    trace (after v s l) = SetLoading true :: effects ++ [SetLoading false].
Proof.
  intros Hne.
  destruct (handleConvert_path v s l) as [G | | | | | | | ].
  { apply truthy_empty in G. contradiction. }
  all: split; [reflexivity | ].
  all: match goal with
       | |- exists _, ?t = _ => exists (removelast (tl t))
       end.
  all: open_trace; split_trace v s; reflexivity.
Qed.

(** X3.  The library calls of an invocation follow the steps of an attempt
    in order, with none repeated or skipped: they are the first [n] of the
    client for the input format's configuration, the client for the output
    format's configuration, parse, transform, render.  Each call is made only
    after the one before it returned, so a call that throws is the last
    one. *)
Theorem calls_follow_steps v (s : State (Format v)) (l : LibState) :
  (exists n,
     map callOf (calls (trace (after v s l)))
       = map Some (firstn n (steps v s))) /\
  Forall (fun e => thrown e = None)
         (removelast (calls (trace (after v s l)))).
Proof.
  destruct (handleConvert_path v s l); open_trace; split_trace v s;
    cbn [calls filter app isLibraryCall removelast].
  all: split;
    [ first [ exists 0; reflexivity | exists 1; reflexivity
            | exists 2; reflexivity | exists 3; reflexivity
            | exists 4; reflexivity | exists 5; reflexivity ]
    | repeat constructor ].
Qed.

(** X4.  Units flow from step to step.  The parse call is made by the client
    handed out for the input format.  The transform call is made by the
    client handed out for the output format, on the unit of a parse result
    without diagnostics, always with the [Compatibility] pipeline.  The
    render call is made by that same output client, on the unit the transform
    call returned. *)
Theorem units_flow_through v (s : State (Format v)) (l : LibState) :
  (forall e, In e (trace (after v s l)) -> isParse e = true ->
     exists ic r,
       nth_error (trace (after v s l)) 3
         = Some (BaseUnitClient (configuration v (inputFormat s)) (Returns ic))
       /\ e = parseEvent v s ic r) /\
  (forall oc u pipeline r,
     In (Transform oc u pipeline r) (trace (after v s l)) ->
     pipeline = Compatibility /\
     nth_error (trace (after v s l)) 4
       = Some (BaseUnitClient (configuration v (outputFormat s)) (Returns oc))
     /\ exists e p,
          In e (trace (after v s l)) /\ parsed e = Some p /\
          nonEmpty (results p) = false /\ baseUnit p = u) /\
  (forall oc u mediaType r,
     In (Render oc u mediaType r) (trace (after v s l)) ->
     nth_error (trace (after v s l)) 4
       = Some (BaseUnitClient (configuration v (outputFormat s)) (Returns oc))
     /\ exists source t,
          In (Transform oc source Compatibility (Returns t))
             (trace (after v s l)) /\
          baseUnit t = u).
Proof.
  split; [ | split ].
  - intros e' Hin Hp.
    destruct (handleConvert_path v s l)
      as [ | | | ic oc e | ic oc p | ic oc p e | ic oc p t e | ic oc p t text ];
      open_trace; split_trace v s; members Hin; try discriminate Hp;
      do 2 eexists; split; reflexivity.
  - intros oc' u pipeline r Hin.
    destruct (handleConvert_path v s l)
      as [ | | | ic oc e | ic oc p | ic oc p e | ic oc p t e | ic oc p t text ];
      open_trace; split_trace v s; members Hin; try discriminate;
      injection Hin as <- <- <- <-.
    all: split; [ reflexivity | split; [ reflexivity | ] ].
    all: do 2 eexists;
      (split; [ cbn [app In]; do 5 right; left; reflexivity | ]);
      (split; [ reflexivity | split; [ assumption | reflexivity ] ]).
  - intros oc' u mediaType r Hin.
    destruct (handleConvert_path v s l)
      as [ | | | ic oc e | ic oc p | ic oc p e | ic oc p t e | ic oc p t text ];
      open_trace; split_trace v s; members Hin; try discriminate;
      injection Hin as <- <- <- <-.
    all: split; [ reflexivity | ].
    all: do 2 eexists;
      (split; [ cbn [app In]; do 6 right; left; reflexivity | reflexivity ]).
Qed.


(** X5.  A [parseDocument] call is only made in URL mode and always on the
    input text exactly as typed, surrounding blanks included: the guard trims
    the text to test it, the call does not.  In URL mode, unless client
    selection throws, that call is made and is the only parse call. *)
Theorem url_mode_fetches_raw_input v (s : State (Format v)) (l : LibState) :
  (forall ic source r,
     In (ParseDocument ic source r) (trace (after v s l)) ->
     source = input s /\ inputMode s = url) /\
  (inputMode s = url ->
   trim (input s) <> "" ->
   (forall cfg e,
      ~ In (BaseUnitClient cfg (Throws e)) (trace (after v s l))) ->
   exists ic r,
     In (ParseDocument ic (input s) r) (trace (after v s l)) /\
     forall e, In e (trace (after v s l)) -> isParse e = true ->
       e = ParseDocument ic (input s) r).
Proof.
  split.
  - intros ic source r Hin.
    destruct (handleConvert_path v s l); open_trace; split_trace v s;
      members Hin; try discriminate; injection Hin as <- <- <-; repeat split.
  - intros Hmode Hne Hsel.
    destruct (handleConvert_path v s l)
      as [ G | e | ic e | ic oc e | ic oc p | ic oc p e | ic oc p t e
         | ic oc p t text ].
    + apply truthy_empty in G. contradiction.
    + exfalso. apply (Hsel (inputConfiguration v s) e).
      open_trace; cbn [app In]; tauto.
    + exfalso. apply (Hsel (outputConfiguration v s) e).
      open_trace; cbn [app In]; tauto.
    + exists ic, (Throws e). open_trace. rewrite Hmode.
      split; [ cbn [app In]; tauto | ].
      intros e' Hin Hp.
      destruct v, (describe e); members Hin; try discriminate; reflexivity.
    + exists ic, (Returns p). open_trace. rewrite Hmode.
      split; [ cbn [app In]; tauto | ].
      intros e' Hin Hp. destruct v; members Hin; try discriminate; reflexivity.
    + exists ic, (Returns p). open_trace. rewrite Hmode.
      split; [ cbn [app In]; tauto | ].
      intros e' Hin Hp.
      destruct v, (describe e); members Hin; try discriminate; reflexivity.
    + exists ic, (Returns p). open_trace. rewrite Hmode.
      split; [ cbn [app In]; tauto | ].
      intros e' Hin Hp.
      destruct v, (nonEmpty (results t)), (describe e); members Hin;
        try discriminate; reflexivity.
    + exists ic, (Returns p). open_trace. rewrite Hmode.
      split; [ cbn [app In]; tauto | ].
      intros e' Hin Hp.
      destruct v, (nonEmpty (results t)); members Hin;
        try discriminate; reflexivity.
Qed.

(** X6.  The guard never fires on a click: whenever the convert button is
    enabled, the handler starts an attempt, clearing error and output and
    going on to ask the library for the input format's client. *)
Theorem enabled_click_starts_attempt
    v (s : State (Format v)) (l : LibState) :
  disabled v s = false ->
  exists r rest,
    trace (after v s l)
      = SetLoading true :: SetError "" :: SetOutput ""
        :: BaseUnitClient (configuration v (inputFormat s)) r :: rest.
Proof.
  intros Hen.
  assert (G : truthy (trim (input s)) = true).
  { destruct v; cbn [disabled] in Hen;
      unfold PlainCss.disabled, Styled.disabled in Hen;
      apply orb_false_iff in Hen; destruct Hen as [_ Hen];
      apply negb_false_iff in Hen; exact Hen. }
  destruct (handleConvert_path v s l) as [G' | | | | | | | ];
    [ congruence | .. ]; open_trace; eexists _, _; reflexivity.
Qed.

(** X8.  A parse result without diagnostics, be the list empty or missing
    altogether, lets the attempt go on: the transform call is made on that
    result's unit. *)
Theorem clean_parse_goes_on
    v (s : State (Format v)) (l : LibState) e p :
  In e (trace (after v s l)) ->
  parsed e = Some p ->
  nonEmpty (results p) = false ->
  exists oc r,
    In (Transform oc (baseUnit p) Compatibility r) (trace (after v s l)).
Proof.
  intros Hin Hp Hclean.
  destruct (handleConvert_path v s l)
    as [ | | | ic oc e' | ic oc p' | ic oc p' e' | ic oc p' t e'
       | ic oc p' t text ];
    open_trace; split_trace v s; members Hin; try discriminate Hp;
    injection Hp as ->; try congruence.
  all: do 2 eexists; cbn [app In]; do 6 right; left; reflexivity.
Qed.

(** X9.  What reaches the console.  [console.warn] is only called with the
    label ['Transform warnings:'] and the joined messages of a transform
    result that carries diagnostics.  [console.error] is called by the styled
    variant alone, with the label ['Conversion error:'] and a value some
    library call threw; and there it is called for every such value. *)
Theorem console_output v (s : State (Format v)) (l : LibState) :
  (forall label text,
     In (ConsoleWarn label text) (trace (after v s l)) ->
     label = "Transform warnings:" /\
     exists e t,
       In e (trace (after v s l)) /\ transformed e = Some t /\
       nonEmpty (results t) = true /\ text = messages (results t)) /\
  (forall label err,
     In (ConsoleError label err) (trace (after v s l)) ->
     v = styled /\ label = "Conversion error:" /\
     exists e, In e (trace (after v s l)) /\ thrown e = Some err) /\
  (v = styled ->
   forall e err, In e (trace (after v s l)) -> thrown e = Some err ->
     In (ConsoleError "Conversion error:" err) (trace (after v s l))).
Proof.
  split; [ | split ].
  - intros label text Hin.
    destruct (handleConvert_path v s l)
      as [ | | | ic oc e | ic oc p | ic oc p e | ic oc p t e | ic oc p t text' ];
      open_trace; split_trace v s; members Hin; try discriminate;
      injection Hin as <- <-.
    all: split; [ reflexivity | ].
    all: exists (Transform oc (baseUnit p) Compatibility (Returns t)), t;
      (split; [ cbn [app In]; tauto | ]);
      (split; [ reflexivity | split; [ assumption | reflexivity ] ]).
  - intros label err Hin.
    destruct (handleConvert_path v s l)
      as [ | e | ic e | ic oc e | ic oc p | ic oc p e | ic oc p t e
         | ic oc p t text' ];
      open_trace; split_trace v s; members Hin; try discriminate;
      injection Hin as <- <-.
    all: split; [ reflexivity | split; [ reflexivity | ] ].
    all: pick_event ltac:(reflexivity).
  - intros -> e err Hin Hthrown.
    destruct (handleConvert_path styled s l);
      open_trace; cbn [app] in *;
      destruct (inputMode s);
      repeat match goal with
             | H : context [if nonEmpty ?x then _ else _] |- _ =>
                 destruct (nonEmpty x) eqn:?
             | H : context [match describe ?x with _ => _ end] |- _ =>
                 destruct (describe x) eqn:?
             end;
      members Hin; cbn [thrown] in Hthrown; try discriminate Hthrown;
      injection Hthrown as ->; cbn [In];
      repeat (first [ left; reflexivity | right ]).
Qed.

(** X10.  No attempt ends silently unless the handler itself throws.  When
    the input does not trim to the empty string, either the render call
    returned a text, which is then the output while the error is empty; or
    the output is empty and the error is a message starting with
    ['Parsing errors:'] and a line feed, or with ['Conversion error: ']; or
    a library call threw a value that has no string form, in which case
    output and error are both left empty and the handler throws what the
    conversion threw. *)
Theorem attempt_shows_result_or_error
    v (s : State (Format v)) (l : LibState) :
  trim (input s) <> "" ->
  (exists oc u mediaType text,
     In (Render oc u mediaType (Returns text)) (trace (after v s l)) /\
     output (ui (after v s l)) = text /\
     error (ui (after v s l)) = "")
  \/
  (output (ui (after v s l)) = "" /\
   exists detail,
     error (ui (after v s l)) = "Parsing errors:" ++ LF ++ detail \/
     error (ui (after v s l)) = "Conversion error: " ++ detail)
  \/
  (output (ui (after v s l)) = "" /\
   error (ui (after v s l)) = "" /\
   exists ev e e',
     In ev (trace (after v s l)) /\ thrown ev = Some e /\
     describe e = Throws e' /\
     fst (invoke (handleConvert amf v) s l) = Throw e').
Proof.
  intros Hne.
  generalize (Run_throws amf _ _ _ _ _ (handleConvert_path v s l)).
  destruct (handleConvert_path v s l)
    as [ G | e | ic e | ic oc e | ic oc p | ic oc p e | ic oc p t e
       | ic oc p t text ];
    intros Hthrows; cbn [ui].
  1: apply truthy_empty in G; contradiction.
  4: { right; left. split; [ reflexivity | ].
       exists (messages (results p)). left. reflexivity. }
  6: { left. exists oc, (baseUnit t), (mimeType v s), text.
       split; [ | split; reflexivity ].
       open_trace. rewrite !in_app_iff. cbn [In]. tauto. }
  all: unfold failed, settled in *;
    destruct (describe e) as [ detail | e' ] eqn:Hd; right.
  all: try (left; split; [ reflexivity | ];
            exists detail; right; reflexivity).
  all: right; split; [ reflexivity | split; [ reflexivity | ] ];
    destruct (Hthrows e' eq_refl) as (ev & e0 & Hin & Hev & Hd0);
    exists ev, e0, e'; repeat split; assumption.
Qed.

(** X7.  An attempt starts afresh.  Two components that agree on the formats,
    the input mode and the input text, but not necessarily on what they show
    as output, error or loading, end a click in the same state, with the same
    effects, against the same library. *)
Theorem attempt_ignores_old_result
    v (s1 s2 : State (Format v)) (l : LibState) :
  inputFormat s1 = inputFormat s2 ->
  outputFormat s1 = outputFormat s2 ->
  inputMode s1 = inputMode s2 ->
  input s1 = input s2 ->
  trim (input s1) <> "" ->
  invoke (handleConvert amf v) s1 l = invoke (handleConvert amf v) s2 l.
Proof.
  intros Hi Ho Hm Hin Hne. apply truthy_nonempty in Hne.
  destruct s1 as [fi fo mode text out1 load1 err1],
           s2 as [fi2 fo2 mode2 text2 out2 load2 err2].
  cbn [inputFormat outputFormat inputMode input] in *. subst fi2 fo2 mode2 text2.
  destruct v; cbn [handleConvert Format] in *;
    unfold PlainCss.handleConvert, Styled.handleConvert;
    unfold_steps;
    cbn [input inputFormat outputFormat inputMode] in *;
    rewrite Hne; cbn [negb];
    rewrite ?getClient_plainCss, ?getClient_styled;
    repeat (split_steps; unfold_steps); reflexivity.
Qed.


Lemma upgrade_configuration (f : PlainCss.Format) :
  configuration styled (Upgrade.format f) = configuration plainCss f.
Proof. destruct f; reflexivity. Qed.

Lemma upgrade_toString (f : PlainCss.Format) :
  Styled.toString (Upgrade.format f) = PlainCss.toString f.
Proof. destruct f; reflexivity. Qed.

(** X15.  The styled variant extends the plain-CSS one.  On a form the
    plain-CSS variant can show, with the same library, both handlers complete
    the same way, leave the library in the same state and the component in
    the same state, and have the same effects in the same order, but for the
    [console.error] calls that only the styled variant makes. *)
Theorem styled_extends_plainCss (s : State PlainCss.Format) (l : LibState) :
  (forall f, Styled.toString (Upgrade.format f) = PlainCss.toString f) /\
  fst (invoke (Styled.handleConvert amf) (Upgrade.state s) l)
    = fst (invoke (PlainCss.handleConvert amf) s l) /\
  lib (snd (invoke (Styled.handleConvert amf) (Upgrade.state s) l))
    = lib (snd (invoke (PlainCss.handleConvert amf) s l)) /\
  ui (snd (invoke (Styled.handleConvert amf) (Upgrade.state s) l))
    = Upgrade.state (ui (snd (invoke (PlainCss.handleConvert amf) s l))) /\
  filter (fun e => negb (Upgrade.isConsoleError e))
         (trace (snd (invoke (Styled.handleConvert amf) (Upgrade.state s) l)))
    = trace (snd (invoke (PlainCss.handleConvert amf) s l)).
Proof.
  split; [ exact upgrade_toString | ].
  destruct s as [fi fo mode text out load err].
  unfold Upgrade.state, PlainCss.handleConvert, Styled.handleConvert.
  unfold_steps.
  cbn [input inputFormat outputFormat inputMode].
  destruct (truthy (trim text)); cbn [negb];
    [ | cbn; repeat split ].
  rewrite ?getClient_plainCss, ?getClient_styled.
  rewrite !upgrade_configuration, !upgrade_toString.
  repeat (split_steps; unfold_steps); cbn; repeat split; reflexivity.
Qed.


(** The two facts a session keeps about what the page shows. *)
Lemma react_keeps_display v (a : Action v) (s : State (Format v)) l :
  (output s = "" \/ error s = "") /\ error s <> "Please provide input" ->
  (output (fst (react amf v a s l)) = "" \/
   error (fst (react amf v a s l)) = "") /\
  error (fst (react amf v a s l)) <> "Please provide input".
Proof.
  intros Hs.
  destruct a; cbn [react fst]; try exact Hs.
  destruct (disabled v s) eqn:Hd; cbn [fst]; [exact Hs | ].
  assert (G : truthy (trim (input s)) = true).
  { destruct v; cbn [disabled] in Hd;
      unfold PlainCss.disabled, Styled.disabled in Hd;
      apply orb_false_iff in Hd; destruct Hd as [_ Hd];
      apply negb_false_iff in Hd; exact Hd. }
  destruct (handleConvert_path v s l)
    as [ G' | e | ? e | ? ? e | | ? ? ? e | ? ? ? ? e | ];
    [ congruence | .. ]; cbn [ui]; unfold failed;
    try destruct (describe e);
    cbn [error output withLoading withError withOutput];
    unfold conversionError, parsingErrors;
    (split; [ auto | cbn; discriminate ]).
Qed.

Lemma session_keeps_display v (actions : list (Action v)) :
  forall (s : State (Format v)) l,
    (output s = "" \/ error s = "") /\ error s <> "Please provide input" ->
    (output (fst (session amf v actions s l)) = "" \/
     error (fst (session amf v actions s l)) = "") /\
    error (fst (session amf v actions s l)) <> "Please provide input".
Proof.
  induction actions as [ | a rest IH ]; intros s l Hs; cbn [session].
  - exact Hs.
  - pose proof (react_keeps_display v a s l Hs) as Hstep.
    destruct (react amf v a s l) as [s' l']. apply IH. exact Hstep.
Qed.

(** X11.  Through the page, result and error never show together.  After any
    sequence of picks, mode changes, edits and clicks from the initial state,
    against any library, the output area is empty or there is no error box;
    and the error box never reads ['Please provide input'], as the button
    that would lead to it is disabled. *)
Theorem page_shows_result_or_error
    v (actions : list (Action v)) (l : LibState) :
  (output (fst (session amf v actions (initial v) l)) = "" \/
   errorBox (fst (session amf v actions (initial v) l)) = None) /\
  errorBox (fst (session amf v actions (initial v) l))
    <> Some "Please provide input".
Proof.
  assert (Hinit : (output (initial v) = "" \/ error (initial v) = "") /\
                  error (initial v) <> "Please provide input")
    by (destruct v; (split; [ left; reflexivity | discriminate ])).
  destruct (session_keeps_display v actions (initial v) l Hinit)
    as [Hex Hmsg].
  unfold errorBox.
  destruct (error (fst (session amf v actions (initial v) l))) eqn:E;
    cbn [truthy].
  - split; [ right; reflexivity | discriminate ].
  - split.
    + destruct Hex as [Hout | Herr]; [ left; exact Hout | discriminate Herr ].
    + intros Heq. apply Hmsg. congruence.
Qed.


End Further.

(** ** [trim] gives the empty string exactly on white space *)

Lemma isWhiteSpace_listed (p : string) :
  Js.isWhiteSpace p = true -> In p Js.whiteSpace.
Proof.
  unfold Js.isWhiteSpace. intros H.
  apply existsb_exists in H. destruct H as (q & Hq & Heq).
  apply String.eqb_eq in Heq. subst q. exact Hq.
Qed.

Lemma whiteSpace_not_empty (p : string) :
  In p Js.whiteSpace -> 0 < String.length p.
Proof.
  intros H. unfold Js.whiteSpace in H. cbn [In] in H.
  repeat (destruct H as [<- | H]; [ cbn; lia | ]). contradiction.
Qed.

(** Stripping goes through a white-space code point. *)
Lemma trimStart_skips (p rest : string) :
  In p Js.whiteSpace -> Js.trimStart (p ++ rest) = Js.trimStart rest.
Proof.
  intros H. unfold Js.whiteSpace in H. cbn [In] in H.
  repeat (destruct H as [<- | H]; [ reflexivity | ]). contradiction.
Qed.

(** Either nothing is stripped, or a white-space code point is. *)
Lemma trimStart_step (s : string) :
  Js.trimStart s = s \/
  exists p rest,
    In p Js.whiteSpace /\ s = p ++ rest /\
    Js.trimStart s = Js.trimStart rest.
Proof.
  destruct s as [ | a [ | b [ | c s3 ] ] ]; cbn [Js.trimStart].
  - left; reflexivity.
  - destruct (Js.isWhiteSpace (String a "")) eqn:H1; [ right | left; trivial ].
    exists (String a ""), "". apply isWhiteSpace_listed in H1. auto.
  - destruct (Js.isWhiteSpace (String a "")) eqn:H1.
    { right. exists (String a ""), (String b "").
      apply isWhiteSpace_listed in H1. auto. }
    destruct (Js.isWhiteSpace (String a (String b ""))) eqn:H2;
      [ right | left; trivial ].
    exists (String a (String b "")), "".
    apply isWhiteSpace_listed in H2. auto.
  - destruct (Js.isWhiteSpace (String a "")) eqn:H1.
    { right. exists (String a ""), (String b (String c s3)).
      apply isWhiteSpace_listed in H1. auto. }
    destruct (Js.isWhiteSpace (String a (String b ""))) eqn:H2.
    { right. exists (String a (String b "")), (String c s3).
      apply isWhiteSpace_listed in H2. auto. }
    destruct (Js.isWhiteSpace (String a (String b (String c "")))) eqn:H3;
      [ right | left; trivial ].
    exists (String a (String b (String c ""))), s3.
    apply isWhiteSpace_listed in H3. auto.
Qed.

Lemma length_append (p rest : string) :
  String.length (p ++ rest) = String.length p + String.length rest.
Proof. induction p as [ | a p IH ]; cbn; [ | rewrite IH ]; reflexivity. Qed.

Lemma concat_empty_cons (p : string) (pieces : list string) :
  String.concat "" (p :: pieces) = p ++ String.concat "" pieces.
Proof.
  destruct pieces as [ | q pieces ]; cbn [String.concat].
  - induction p as [ | a p IH ]; cbn; [ | rewrite <- IH ]; reflexivity.
  - reflexivity.
Qed.

Lemma append_assoc (a b c : string) : (a ++ b) ++ c = a ++ (b ++ c).
Proof. induction a as [ | x a IH ]; cbn; [ | rewrite IH ]; reflexivity. Qed.

Lemma append_empty (a : string) : a ++ "" = a.
Proof. induction a as [ | x a IH ]; cbn; [ | rewrite IH ]; reflexivity. Qed.

(** What [trimStart] strips is a run of white-space code points, and it
    leaves a string it would not strip any further. *)
Lemma trimStart_splits (n : nat) :
  forall s, String.length s <= n ->
    Js.trimStart (Js.trimStart s) = Js.trimStart s /\
    exists pieces,
      Forall (fun p => In p Js.whiteSpace) pieces /\
      s = String.concat "" pieces ++ Js.trimStart s.
Proof.
  induction n as [ | n IH ]; intros s Hlen.
  - destruct s; [ | cbn in Hlen; lia ].
    split; [ reflexivity | exists []; split; [ constructor | reflexivity ] ].
  - destruct (trimStart_step s) as [Hfix | (p & rest & Hp & Hs & Hstep)].
    + split; [ rewrite Hfix; exact Hfix | ].
      exists []. split; [ constructor | ]. rewrite Hfix. reflexivity.
    + assert (Hrest : String.length rest <= n).
      { pose proof (whiteSpace_not_empty p Hp) as Hpos.
        rewrite Hs, length_append in Hlen. lia. }
      destruct (IH rest Hrest) as [Hidem (pieces & Hall & Hsplit)].
      rewrite Hstep. split; [ exact Hidem | ].
      exists (p :: pieces). split; [ constructor; assumption | ].
      rewrite concat_empty_cons, append_assoc, <- Hsplit. exact Hs.
Qed.

Lemma trimStart_blank (pieces : list string) :
  Forall (fun p => In p Js.whiteSpace) pieces ->
  Js.trimStart (String.concat "" pieces) = "".
Proof.
  induction 1 as [ | p pieces Hp Hall IH ]; [ reflexivity | ].
  rewrite concat_empty_cons, trimStart_skips by exact Hp. exact IH.
Qed.

Lemma trimEnd_empty (s : string) :
  Js.trimEnd s = "" <-> Js.trimStart s = "".
Proof.
  destruct s as [ | a s ]; [ cbn; tauto | ].
  cbn [Js.trimEnd]. destruct (Js.trimStart (String a s)); split;
    first [ reflexivity | discriminate ].
Qed.

Lemma trim_blank_iff (s : string) :
  Js.trim s = "" <->
  exists pieces,
    Forall (fun p => In p Js.whiteSpace) pieces /\
    s = String.concat "" pieces.
Proof.
  unfold Js.trim. rewrite trimEnd_empty.
  destruct (trimStart_splits (String.length s) s (le_n _))
    as [Hidem (pieces & Hall & Hsplit)].
  rewrite Hidem. split.
  - intros Hempty. exists pieces. split; [ exact Hall | ].
    rewrite Hempty, append_empty in Hsplit. exact Hsplit.
  - intros (qs & Hqs & ->). apply trimStart_blank. exact Hqs.
Qed.

(** X12.  The convert button is disabled exactly when a conversion is in
    flight or the input is made of white space only: a sequence, possibly
    empty, of the code points [trim] strips (tab, line feed, vertical tab,
    form feed, carriage return, space, no-break space, U+1680, U+2000 to
    U+200A, U+2028, U+2029, U+202F, U+205F, U+3000, U+FEFF). *)
Theorem disabled_on_blank_input v (s : Ui.State (Format v)) :
  disabled v s = true <->
  Ui.loading s = true \/
  exists pieces,
    Forall (fun p => In p Js.whiteSpace) pieces /\
    Ui.input s = String.concat "" pieces.
Proof.
  rewrite <- trim_blank_iff.
  destruct v; cbn [disabled];
    unfold PlainCss.disabled, Styled.disabled;
    rewrite orb_true_iff, negb_true_iff, truthy_empty; reflexivity.
Qed.

(** ** The further properties at concrete runs of the scripted library *)

Section FurtherRuns.
Import Js Amf Ui Page Protocol Scripted Samples.

Ltac among := vm_compute; tauto.

Ltac every_event :=
  vm_compute;
  intros;
  repeat match goal with
         | H : _ \/ _ |- _ => destruct H as [H | H]
         | H : False |- _ => destruct H
         end;
  subst; try discriminate.

Lemma attempt_resets_loading_witness :
  loading (ui (snd (run failingFetch swaggerLink))) = false /\
  exists effects,
    trace (snd (run failingFetch swaggerLink))
      = SetLoading true :: effects ++ [SetLoading false].
Proof.
  apply (attempt_resets_loading (library failingFetch) plainCss swaggerLink 0).
  vm_compute. discriminate.
Defined.

Lemma units_flow_through_witness :
  nth_error (trace (snd (run happy ramlPaste))) 4
    = Some (BaseUnitClient OAS30 (Returns OAS30)) /\
  exists source t,
    In (Transform OAS30 source Compatibility (Returns t))
       (trace (snd (run happy ramlPaste))) /\
    baseUnit t = "transformed".
Proof.
  apply (units_flow_through (library happy) styled ramlPaste 0)
    with (mediaType := "application/json") (r := Returns "rendered text").
  among.
Defined.

Lemma url_mode_fetches_raw_input_witness :
  exists ic r,
    In (ParseDocument ic "  https://example.com/api.yaml " r)
       (trace (snd (run happy paddedLink))) /\
    forall e, In e (trace (snd (run happy paddedLink))) ->
      isParse e = true ->
      e = ParseDocument ic "  https://example.com/api.yaml " r.
Proof.
  apply (url_mode_fetches_raw_input (library happy) styled paddedLink 0).
  - reflexivity.
  - vm_compute. discriminate.
  - every_event.
Defined.

Lemma enabled_click_starts_attempt_witness :
  exists r rest,
    trace (snd (run happy ramlPaste))
      = SetLoading true :: SetError "" :: SetOutput ""
        :: BaseUnitClient RAML10 r :: rest.
Proof.
  apply (enabled_click_starts_attempt (library happy) styled ramlPaste 0).
  reflexivity.
Defined.

Lemma attempt_ignores_old_result_witness :
  run happy swaggerLink = run happy swaggerLinkAfterFailure.
Proof.
  apply (attempt_ignores_old_result (library happy) plainCss
           swaggerLink swaggerLinkAfterFailure 0).
  - reflexivity.
  - reflexivity.
  - reflexivity.
  - reflexivity.
  - vm_compute. discriminate.
Defined.

Lemma clean_parse_goes_on_witness :
  exists oc r,
    In (Transform oc "parsed" Compatibility r)
       (trace (snd (run bareParse swaggerLink))).
Proof.
  apply (clean_parse_goes_on (library bareParse) plainCss swaggerLink 0
           (ParseDocument OAS20 "https://example.com/api.json"
              (Returns (bare "parsed")))
           (bare "parsed")).
  - among.
  - reflexivity.
  - reflexivity.
Defined.

Lemma console_output_witness :
  In (ConsoleError "Conversion error:" (NonError "boom"))
     (trace (snd (run failingRender ramlPaste))).
Proof.
  apply (console_output (library failingRender) styled ramlPaste 0)
    with (e := Render OAS30 "transformed" "application/json"
                 (Throws (NonError "boom"))).
  - reflexivity.
  - among.
  - reflexivity.
Defined.

Lemma attempt_shows_result_or_error_witness :
  (exists oc u mediaType text,
     In (Render oc u mediaType (Returns text))
        (trace (snd (run unprintable swaggerLink))) /\
     output (ui (snd (run unprintable swaggerLink))) = text /\
     error (ui (snd (run unprintable swaggerLink))) = "")
  \/
  (output (ui (snd (run unprintable swaggerLink))) = "" /\
   exists detail,
     error (ui (snd (run unprintable swaggerLink)))
       = "Parsing errors:" ++ LF ++ detail \/
     error (ui (snd (run unprintable swaggerLink)))
       = "Conversion error: " ++ detail)
  \/
  (output (ui (snd (run unprintable swaggerLink))) = "" /\
   error (ui (snd (run unprintable swaggerLink))) = "" /\
   exists ev e e',
     In ev (trace (snd (run unprintable swaggerLink))) /\
     thrown ev = Some e /\
     describe e = Throws e' /\
     fst (run unprintable swaggerLink) = Throw e').
Proof.
  apply (attempt_shows_result_or_error (library unprintable) plainCss
           swaggerLink 0).
  vm_compute. discriminate.
Defined.


End FurtherRuns.
